(** * pycronometer: the login handshake and the GWT-RPC codec

    A shallow embedding of [pycronometer/gwt.py], [pycronometer/auth.py],
    [pycronometer/exceptions.py] and the authentication half of
    [pycronometer/client.py], with the properties of the handshake and
    of the codec proved over it.

    Modelling conventions.
    - A Python [str] is a [string]; its characters are the 8-bit
      characters of [ascii] (code points 0-255).  On that range the
      regex class [\d] is exactly ['0'..'9'] and [.] is every character
      except the line feed.
    - [str | None] is [option string]; Python truthiness of such a value
      ([x or y], [if not x]) is [truthy].
    - A [dict] with string keys is a [gmap string _].
    - The [re] module, [requests], [BeautifulSoup] and [json] are
      libraries outside the repository: the part of their behaviour the
      code relies on is modelled in the modules [Re] and [Http]. *)

From Stdlib Require Import String Ascii ZArith List Lia Bool.
From stdpp Require Import base option gmap strings pretty.
Import ListNotations.

Local Open Scope string_scope.

(** String concatenation computes under [simpl] throughout this file. *)
#[local] Arguments String.append !_ _ / : simpl nomatch.

(** ** Characters and small string utilities *)

Definition dquote : ascii := "034"%char.
Definition newline : ascii := "010"%char.

Definition is_digit (c : ascii) : bool :=
  (48 <=? nat_of_ascii c)%nat && (nat_of_ascii c <=? 57)%nat.

Fixpoint all_digits (s : string) : bool :=
  match s with
  | EmptyString => true
  | String c s' => is_digit c && all_digits s'
  end.

Fixpoint has_char (a : ascii) (s : string) : bool :=
  match s with
  | EmptyString => false
  | String c s' => Ascii.eqb c a || has_char a s'
  end.

(** Python's [s[:n]]. *)
Definition py_prefix (n : nat) (s : string) : string := String.substring 0 n s.

(** Python truthiness of a [str | None]: [None] and the empty string
    are false. *)
Definition truthy (o : option string) : bool :=
  match o with
  | Some (String _ _) => true
  | _ => false
  end.

(** Python's [a or b] where [a : str | None] and [b : str]. *)
Definition py_or (a : option string) (b : string) : string :=
  match a with
  | Some (String c s) => String c s
  | _ => b
  end.

(** Python's [s.split(sep)] for a one-character separator. *)
Fixpoint split_on (sep : ascii) (s : string) : list string :=
  match s with
  | EmptyString => [EmptyString]
  | String c s' =>
      if Ascii.eqb c sep then EmptyString :: split_on sep s'
      else match split_on sep s' with
           | f :: fs => String c f :: fs
           | [] => [String c EmptyString]
           end
  end.

(** ** The fragment of Python's [re] the codec uses

    Backtracking matching with greedy quantifiers over one-character
    atoms and a single capture group, and [search] trying every start
    position from the left. *)

Module Re.

Inductive atom :=
| Lit (c : ascii)   (* a literal character *)
| Digit             (* \d *)
| Dot.              (* .  (no DOTALL flag) *)

Inductive quant := One | Star | Plus.

Inductive item :=
| Item (a : atom) (q : quant)
| Open     (* "(" of group 1 *)
| Close.   (* ")" of group 1 *)

Definition regex := list item.

Definition atom_matches (a : atom) (c : ascii) : bool :=
  match a with
  | Lit x => Ascii.eqb c x
  | Digit => is_digit c
  | Dot => negb (Ascii.eqb c newline)
  end.

(** The span of group 1, kept as the two suffixes of the subject at
    which the group was opened and closed. *)
Definition span := (string * string)%type.

(** Greedy repetition of [a], then the continuation [k]: take one more
    character when possible and fall back to [k] at the current
    position when the rest fails. *)
Fixpoint greedy (a : atom) (k : string -> option span) (s : string)
  : option span :=
  match s with
  | String c s' =>
      if atom_matches a c then
        match greedy a k s' with
        | Some r => Some r
        | None => k s
        end
      else k s
  | EmptyString => k s
  end.

Fixpoint match_here (p : regex) (s : string) (g : span) : option span :=
  match p with
  | [] => Some g
  | Open :: p' => match_here p' s (s, snd g)
  | Close :: p' => match_here p' s (fst g, s)
  | Item a One :: p' =>
      match s with
      | String c s' => if atom_matches a c then match_here p' s' g else None
      | EmptyString => None
      end
  | Item a Star :: p' => greedy a (fun r => match_here p' r g) s
  | Item a Plus :: p' =>
      match s with
      | String c s' =>
          if atom_matches a c then greedy a (fun r => match_here p' r g) s'
          else None
      | EmptyString => None
      end
  end.

(** [pattern.search(s)]: the match at the leftmost start position. *)
Fixpoint search (p : regex) (s : string) : option span :=
  match match_here p s (s, s) with
  | Some g => Some g
  | None =>
      match s with
      | String _ s' => search p s'
      | EmptyString => None
      end
  end.

(** [match.group(1)]. *)
Definition group1 (g : span) : string :=
  String.substring 0 (String.length (fst g) - String.length (snd g)) (fst g).

End Re.

(** ** gwt.py *)

Definition DEFAULT_GWT_CONTENT_TYPE := "text/x-gwt-rpc; charset=UTF-8".
Definition DEFAULT_GWT_MODULE_BASE := "https://cronometer.com/cronometer/".
Definition DEFAULT_GWT_PERMUTATION := "7B121DC5483BF272B1BC1916DA9FA963".
Definition DEFAULT_GWT_HEADER := "2D6A926E3729946302DC68073CB0D550".

Definition ENV_GWT_PERMUTATION := "CRONOMETER_GWT_PERMUTATION".
Definition ENV_GWT_HEADER := "CRONOMETER_GWT_HEADER".

Record GWTConfig := mkGWTConfig {
  content_type : string;
  module_base : string;
  permutation : string;
  header : string
}.

(** [os.environ.get(key, dflt)]. *)
Definition environ_get (environ : gmap string string) (key dflt : string)
  : string :=
  default dflt (environ !! key).

Definition get_gwt_config (environ : gmap string string)
    (permutation header : option string) : GWTConfig :=
  {| content_type := DEFAULT_GWT_CONTENT_TYPE;
     module_base := DEFAULT_GWT_MODULE_BASE;
     permutation :=
       py_or permutation
         (environ_get environ ENV_GWT_PERMUTATION DEFAULT_GWT_PERMUTATION);
     header :=
       py_or header (environ_get environ ENV_GWT_HEADER DEFAULT_GWT_HEADER) |}.

Definition build_gwt_headers (config : GWTConfig) : gmap string string :=
  <["content-type" := content_type config]>
  (<["x-gwt-module-base" := module_base config]>
  (<["x-gwt-permutation" := permutation config]> ∅)).

Definition build_authenticate_body (config : GWTConfig) : string :=
  "7|0|5|https://cronometer.com/cronometer/|" ++ header config ++ "|"
  ++ "com.cronometer.shared.rpc.CronometerService|authenticate|"
  ++ "java.lang.Integer/3438268394|1|2|3|4|1|5|5|-300|".

Definition build_generate_token_body (config : GWTConfig)
    (nonce user_id : string) : string :=
  "7|0|8|https://cronometer.com/cronometer/|" ++ header config ++ "|"
  ++ "com.cronometer.shared.rpc.CronometerService|generateAuthorizationToken|"
  ++ "java.lang.String/2004016611|I|com.cronometer.shared.user.AuthScope/2065601159|"
  ++ nonce ++ "|"
  ++ "1|2|3|4|4|5|6|6|7|8|" ++ user_id ++ "|3600|7|2|".

Definition build_logout_body (config : GWTConfig) (nonce : string) : string :=
  "7|0|6|https://cronometer.com/cronometer/|" ++ header config ++ "|"
  ++ "com.cronometer.shared.rpc.CronometerService|logout|"
  ++ "java.lang.String/2004016611|" ++ nonce ++ "|1|2|3|4|1|5|6|".

(** The compiled pattern [OK\[(\d+),]: the literal [OK], an opening
    bracket, group 1 holding one or more digits, and a comma. *)
Definition USER_ID_PATTERN : Re.regex :=
  [Re.Item (Re.Lit "O") Re.One; Re.Item (Re.Lit "K") Re.One;
   Re.Item (Re.Lit "[") Re.One;
   Re.Open; Re.Item Re.Digit Re.Plus; Re.Close;
   Re.Item (Re.Lit ",") Re.One].

(** The compiled token pattern: a double quote, group 1 holding a
    greedy run of any characters but the line feed, a double quote. *)
Definition TOKEN_PATTERN : Re.regex :=
  [Re.Item (Re.Lit dquote) Re.One;
   Re.Open; Re.Item Re.Dot Re.Star; Re.Close;
   Re.Item (Re.Lit dquote) Re.One].

Definition parse_user_id (response_text : string) : option string :=
  match Re.search USER_ID_PATTERN response_text with
  | Some m => Some (Re.group1 m)
  | None => None
  end.

Definition parse_auth_token (response_text : string) : option string :=
  match Re.search TOKEN_PATTERN response_text with
  | Some m => Some (Re.group1 m)
  | None => None
  end.

(** ** The HTTP collaborators: [requests], [json], [BeautifulSoup] *)

Module Http.

(** A decoded JSON document (non-integral numbers are left out). *)
#[warnings="-register-all"]
Inductive json :=
| JNull
| JBool (b : bool)
| JInt (z : Z)
| JStr (s : string)
| JArr (l : list json)
| JObj (m : gmap string json).

(** Python truthiness of a decoded JSON value. *)
Definition json_truthy (v : json) : bool :=
  match v with
  | JNull => false
  | JBool b => b
  | JInt z => negb (z =? 0)%Z
  | JStr s => negb (String.eqb s "")
  | JArr l => match l with [] => false | _ => true end
  | JObj m => negb (bool_decide (m = ∅))
  end.

(** An attribute value of a [bs4] tag: a string, or a list of strings
    for the multi-valued attributes. *)
Inductive attr :=
| AttrStr (s : string)
| AttrList (l : list string).

Record Tag := mkTag {
  tag_name : string;
  attrs : gmap string attr
}.

Inductive Method := GET | POST.

(** The [data=] argument: a dict is sent form-encoded, a [str] as is. *)
Inductive Payload :=
| NoData
| Form (fields : gmap string string)
| Body (raw : string).

Record Request := mkRequest {
  method : Method;
  url : string;
  data : Payload;
  headers : gmap string string;
  cookie_header : gmap string string
}.

(** A response as the code observes it: the status, the body text, what
    [response.json()] decodes ([None] when the body is not JSON), what
    [BeautifulSoup(text, "html.parser").find(tag, {"name": n})] finds,
    and the cookies the server sets. *)
Record Response := mkResponse {
  status_code : Z;
  text : string;
  json_body : option json;
  soup_find : string -> string -> option Tag;
  set_cookies : list (string * string)
}.

(** The remote service: unreachable, or answering a request and moving
    on. *)
#[warnings="-register-all"]
Inductive Remote :=
| Unreachable
| Serving (answer : Request -> Response * Remote).

(** A [requests.Session]: its cookie jar, the service behind it, and the
    requests issued so far (oldest first). *)
Record Session := mkSession {
  cookies : gmap string string;
  remote : Remote;
  sent : list Request
}.

End Http.

Import Http.

(** ** exceptions.py, and the library exceptions that can surface *)

Inductive exn :=
| CronometerAuthError (msg : string)
| GWTVersionError (msg : string)
| ExportError (msg : string)
| HTTPError (status : Z)      (* requests.exceptions.HTTPError *)
| ConnectionError             (* requests.exceptions.ConnectionError *)
| JSONDecodeError             (* requests.exceptions.JSONDecodeError *)
| AttributeError
| AssertionError.

(** [isinstance(e, CronometerError)] etc.: the class hierarchy. *)
Definition is_CronometerError (e : exn) : bool :=
  match e with
  | CronometerAuthError _ | GWTVersionError _ | ExportError _ => true
  | _ => false
  end.

Definition is_CronometerAuthError (e : exn) : bool :=
  match e with CronometerAuthError _ => true | _ => false end.

Definition is_GWTVersionError (e : exn) : bool :=
  match e with GWTVersionError _ => true | _ => false end.

(** ** Computations that mutate a state and may raise

    A raised exception keeps the mutations made before it. *)

Inductive result (A : Type) :=
| Return (a : A)
| Raise (e : exn).
Arguments Return {A} a.
Arguments Raise {A} e.

Definition M (S A : Type) : Type := S -> result A * S.

Definition ret {S A} (a : A) : M S A := fun s => (Return a, s).
Definition raise {S A} (e : exn) : M S A := fun s => (Raise e, s).
Definition bind {S A B} (m : M S A) (k : A -> M S B) : M S B :=
  fun s => match m s with
           | (Return a, s') => k a s'
           | (Raise e, s') => (Raise e, s')
           end.

Declare Scope py_scope.
Delimit Scope py_scope with py.
Notation "x <- m ;; k" := (bind m (fun x => k))
  (at level 100, m at next level, right associativity) : py_scope.
Notation "m ;;; k" := (bind m (fun _ => k))
  (at level 100, k at level 200, right associativity) : py_scope.

Local Open Scope py_scope.

(** ** What [requests.Session] does *)

Definition store_cookies (l : list (string * string))
    (jar : gmap string string) : gmap string string :=
  fold_left (fun j kv => <[fst kv := snd kv]> j) l jar.

(** [session.request(...)]: the request goes out with the jar's cookies
    and is logged; an unreachable service raises, a reachable one answers
    and its cookies are stored. *)
Definition session_request (meth : Method) (u : string) (d : Payload)
    (h : gmap string string) : M Session Response :=
  fun ss =>
    let rq := mkRequest meth u d h (cookies ss) in
    match remote ss with
    | Unreachable =>
        (Raise ConnectionError,
         mkSession (cookies ss) Unreachable (sent ss ++ [rq]))
    | Serving answer =>
        let (rsp, rem) := answer rq in
        (Return rsp,
         mkSession (store_cookies (set_cookies rsp) (cookies ss)) rem
                   (sent ss ++ [rq]))
    end.

Definition session_get (u : string) : M Session Response :=
  session_request GET u NoData ∅.

Definition session_post (u : string) (d : Payload) (h : gmap string string)
  : M Session Response :=
  session_request POST u d h.

(** [response.raise_for_status()]: the client-error and server-error
    statuses, 400 to 599, raise [HTTPError]; every other status passes. *)
Definition status_is_error (response : Response) : bool :=
  ((400 <=? status_code response) && (status_code response <? 600))%Z.

Definition raise_for_status {S} (response : Response) : M S unit :=
  if status_is_error response
  then raise (HTTPError (status_code response))
  else ret tt.

(** [response.json()]. *)
Definition response_json {S} (response : Response) : M S json :=
  match json_body response with
  | Some v => ret v
  | None => raise JSONDecodeError
  end.

(** [data.get(key)] on a decoded document; only a dict has [get]. *)
Definition json_get {S} (v : json) (key : string) : M S (option json) :=
  match v with
  | JObj m => ret (m !! key)
  | _ => raise AttributeError
  end.

(** ** auth.py *)

Definition LOGIN_PAGE_URL := "https://cronometer.com/login/".
Definition LOGIN_API_URL := "https://cronometer.com/login".
Definition GWT_API_URL := "https://cronometer.com/cronometer/app".
Definition EXPORT_URL := "https://cronometer.com/export".

Section Handshake.

(** Python's [str()] on a decoded JSON value, as the f-string of
    [perform_login] applies it to the server's error field. *)
Variable py_str : json -> string.

Definition extract_csrf_token : M Session string :=
  response <- session_get LOGIN_PAGE_URL ;;
  raise_for_status response ;;;
  match soup_find response "input" "anticsrf" with
  | None => raise (CronometerAuthError "Could not find CSRF token in login page")
  | Some csrf_input =>
      match attrs csrf_input !! "value" with
      | Some (AttrStr (String c v)) => ret (String c v)
      | _ => raise (CronometerAuthError "CSRF token value is missing or invalid")
      end
  end.

Definition perform_login (email password csrf_token : string)
  : M Session unit :=
  response <- session_post LOGIN_API_URL
                (Form (<["username" := email]>
                      (<["password" := password]>
                      (<["anticsrf" := csrf_token]> ∅))))
                (<["Content-Type" := "application/x-www-form-urlencoded"]> ∅) ;;
  raise_for_status response ;;;
  data <- response_json response ;;
  success <- json_get data "success" ;;
  if negb (json_truthy (default JNull success)) then
    error_field <- json_get data "error" ;;
    let error_msg := default (JStr "Unknown login error") error_field in
    raise (CronometerAuthError ("Login failed: " ++ py_str error_msg))
  else ret tt.

Definition authenticate_gwt (config : GWTConfig) : M Session string :=
  response <- session_post GWT_API_URL
                (Body (build_authenticate_body config))
                (build_gwt_headers config) ;;
  raise_for_status response ;;;
  let user_id := parse_user_id (text response) in
  match user_id with
  | Some (String c u) => ret (String c u)
  | _ =>
      raise (GWTVersionError
               ("Could not parse user ID from GWT response. "
                ++ "GWT values may be outdated. "
                ++ "Response: " ++ py_prefix 200 (text response)))
  end.

Definition generate_export_token (config : GWTConfig)
    (nonce user_id : string) : M Session string :=
  response <- session_post GWT_API_URL
                (Body (build_generate_token_body config nonce user_id))
                (build_gwt_headers config) ;;
  raise_for_status response ;;;
  let token := parse_auth_token (text response) in
  match token with
  | Some (String c t) => ret (String c t)
  | _ =>
      raise (GWTVersionError
               ("Could not parse auth token from GWT response. "
                ++ "GWT values may be outdated. "
                ++ "Response: " ++ py_prefix 200 (text response)))
  end.

Definition get_session_nonce : M Session (option string) :=
  fun ss => (Return (cookies ss !! "sesnonce"), ss).

(** ** client.py: [CronometerClient] *)

Record CronometerClient := mkClient {
  _session : Session;
  _gwt_config : GWTConfig;
  _user_id : option string;
  _nonce : option string
}.

(** [CronometerClient(gwt_permutation, gwt_header)], with the process
    environment and the service the new session will talk to. *)
Definition new_client (environ : gmap string string) (service : Remote)
    (gwt_permutation gwt_header : option string) : CronometerClient :=
  {| _session := mkSession ∅ service [];
     _gwt_config := get_gwt_config environ gwt_permutation gwt_header;
     _user_id := None;
     _nonce := None |}.

(** Running a function of [auth.py] on [self._session]. *)
Definition on_session {A} (m : M Session A) : M CronometerClient A :=
  fun self =>
    let (r, ss) := m (_session self) in
    (r, mkClient ss (_gwt_config self) (_user_id self) (_nonce self)).

Definition set_user_id (v : option string) : M CronometerClient unit :=
  fun self =>
    (Return tt, mkClient (_session self) (_gwt_config self) v (_nonce self)).

Definition set_nonce (v : option string) : M CronometerClient unit :=
  fun self =>
    (Return tt, mkClient (_session self) (_gwt_config self) (_user_id self) v).

Definition login (email password : string) : M CronometerClient unit :=
  fun self =>
    (csrf_token <- on_session extract_csrf_token ;;
     on_session (perform_login email password csrf_token) ;;;
     user_id <- on_session (authenticate_gwt (_gwt_config self)) ;;
     set_user_id (Some user_id) ;;;
     nonce <- on_session get_session_nonce ;;
     set_nonce nonce) self.

Definition _ensure_authenticated : M CronometerClient unit :=
  fun self =>
    if negb (truthy (_user_id self)) || negb (truthy (_nonce self))
    then raise (CronometerAuthError "Not authenticated. Call login() first.") self
    else ret tt self.

Definition _get_export_token : M CronometerClient string :=
  fun self =>
    (_ensure_authenticated ;;;
     match _nonce self, _user_id self with
     | Some nonce, Some user_id =>
         on_session (generate_export_token (_gwt_config self) nonce user_id)
     | _, _ => raise AssertionError
     end) self.

End Handshake.

(** ** Vocabulary of the statements *)

(** A string wrapped in double quotes, and a double quote in front of a
    string. *)
Definition q (s : string) : string := String dquote s.
Definition quoted (s : string) : string := q (s ++ q "").

(** The text holds [OK[], a non-empty run of digits and a comma. *)
Definition has_user_id_pattern (s : string) : Prop :=
  exists pre d post,
    s = pre ++ "OK[" ++ d ++ "," ++ post /\ d <> "" /\ all_digits d = true.

(** What is left of the user-id pattern after its digits: the group is
    closed at a comma. *)
Definition comma_k (start r : string) : option Re.span :=
  match r with
  | String c _ => if Ascii.eqb c "," then Some (start, r) else None
  | EmptyString => None
  end.

(** What is left of the token pattern after its greedy run: the group is
    closed at a double quote. *)
Definition quote_k (start r : string) : option Re.span :=
  match r with
  | String c _ => if Ascii.eqb c dquote then Some (start, r) else None
  | EmptyString => None
  end.

(** No double quote occurs in [s] before its first line feed (or its
    end). *)
Fixpoint quote_free_line (s : string) : bool :=
  match s with
  | EmptyString => true
  | String c s' =>
      if Ascii.eqb c newline then true
      else if Ascii.eqb c dquote then false
      else quote_free_line s'
  end.

(** No two double quotes of [s] lie on one line: every double quote is
    followed by a line feed, or by the end, before any other one. *)
Fixpoint pair_free (s : string) : bool :=
  match s with
  | EmptyString => true
  | String c s' =>
      (if Ascii.eqb c dquote then quote_free_line s' else true)
      && pair_free s'
  end.

(** The decoder as the specification words it: the substring between the
    first pair of double quotes. *)
Fixpoint upto_quote (s : string) : option string :=
  match s with
  | EmptyString => None
  | String c s' =>
      if Ascii.eqb c dquote then Some EmptyString
      else option_map (String c) (upto_quote s')
  end.

Fixpoint first_quoted (s : string) : option string :=
  match s with
  | EmptyString => None
  | String c s' =>
      if Ascii.eqb c dquote then upto_quote s' else first_quoted s'
  end.

(** The login page yields no usable CSRF field: no [input] named
    [anticsrf], or one whose [value] is missing, empty or not a string. *)
Definition csrf_missing (response : Response) : bool :=
  match soup_find response "input" "anticsrf" with
  | None => true
  | Some csrf_input =>
      match attrs csrf_input !! "value" with
      | Some (AttrStr (String _ _)) => false
      | _ => true
      end
  end.

Definition is_post (rq : Request) : bool :=
  match method rq with POST => true | GET => false end.

(** How many POST requests a log holds. *)
Definition count_posts (log : list Request) : nat :=
  length (filter (fun rq => is_post rq = true) log).

(** The requests of the handshake, as the session issues them. *)
Definition login_page_request (jar : gmap string string) : Request :=
  mkRequest GET LOGIN_PAGE_URL NoData ∅ jar.

Definition login_form (email password csrf_token : string) : Payload :=
  Form (<["username" := email]>
       (<["password" := password]>
       (<["anticsrf" := csrf_token]> ∅))).

Definition form_headers : gmap string string :=
  <["Content-Type" := "application/x-www-form-urlencoded"]> ∅.

Definition login_post_request (email password csrf_token : string)
    (jar : gmap string string) : Request :=
  mkRequest POST LOGIN_API_URL (login_form email password csrf_token)
    form_headers jar.

Definition authenticate_request (config : GWTConfig)
    (jar : gmap string string) : Request :=
  mkRequest POST GWT_API_URL (Body (build_authenticate_body config))
    (build_gwt_headers config) jar.

Definition generate_token_request (config : GWTConfig)
    (nonce user_id : string) (jar : gmap string string) : Request :=
  mkRequest POST GWT_API_URL
    (Body (build_generate_token_body config nonce user_id))
    (build_gwt_headers config) jar.

(** The messages of the two protocol-version errors. *)
Definition user_id_error (response_text : string) : string :=
  "Could not parse user ID from GWT response. GWT values may be outdated. Response: "
  ++ py_prefix 200 response_text.

Definition token_error (response_text : string) : string :=
  "Could not parse auth token from GWT response. GWT values may be outdated. Response: "
  ++ py_prefix 200 response_text.

(** ** Example services

    Scripted services for the concrete runs below. *)

(** An instance of [str()] for the runs: exact on strings, [None],
    booleans and integers; the runs format nothing else. *)
Definition str_of_json (v : json) : string :=
  match v with
  | JStr s => s
  | JNull => "None"
  | JBool true => "True"
  | JBool false => "False"
  | JInt z => pretty z
  | JArr _ => "[...]"
  | JObj _ => "{...}"
  end.

Definition no_tags : string -> string -> option Tag := fun _ _ => None.

Definition login_page : Response :=
  {| status_code := 200;
     text := "<form><input type=hidden name=anticsrf value=tok123></form>";
     json_body := None;
     soup_find := fun tag name =>
       if String.eqb tag "input" && String.eqb name "anticsrf"
       then Some (mkTag "input"
                    (<["type" := AttrStr "hidden"]>
                    (<["name" := AttrStr "anticsrf"]>
                    (<["value" := AttrStr "tok123"]> ∅))))
       else None;
     set_cookies := [("JSESSIONID", "s1")] |}.

Definition login_page_without_field : Response :=
  {| status_code := 200;
     text := "<html><body>maintenance</body></html>";
     json_body := None;
     soup_find := no_tags;
     set_cookies := [] |}.

Definition login_accepted : Response :=
  {| status_code := 200;
     text := "{success: true}";
     json_body := Some (JObj (<["success" := JBool true]> ∅));
     soup_find := no_tags;
     set_cookies := [("sesnonce", "nonce456")] |}.

Definition login_unauthorized : Response :=
  {| status_code := 401;
     text := "Unauthorized";
     json_body := None;
     soup_find := no_tags;
     set_cookies := [] |}.

Definition login_refused : Response :=
  {| status_code := 200;
     text := "{error: bad password}";
     json_body := Some (JObj (<["error" := JStr "bad password"]> ∅));
     soup_find := no_tags;
     set_cookies := [] |}.

Definition rpc_reply (body : string) : Response :=
  {| status_code := 200;
     text := body;
     json_body := None;
     soup_find := no_tags;
     set_cookies := [] |}.

Definition server_error (code : Z) (body : string) : Response :=
  {| status_code := code;
     text := body;
     json_body := None;
     soup_find := no_tags;
     set_cookies := [] |}.

(** A service answering with the given responses in turn, whatever the
    requests, and unreachable afterwards. *)
Fixpoint scripted (replies : list Response) : Remote :=
  match replies with
  | [] => Unreachable
  | r :: rs => Serving (fun _ => (r, scripted rs))
  end.

(** A client that logged in earlier, in front of a given service. *)
Definition returning_client (service : Remote) : CronometerClient :=
  {| _session := mkSession ∅ service [];
     _gwt_config := get_gwt_config ∅ None None;
     _user_id := Some "777";
     _nonce := Some "oldnonce" |}.

(** ** exports.py and the retrieval methods of client.py *)

Section Exports.

(** [datetime.date] and its [strftime], and the query-string encoding
    [requests] applies to [params=], are library code: they are taken as
    they come. *)
Variable date : Type.
Variable strftime : date -> string -> string.
Variable urlencode : list (string * string) -> string.

(** [session.get(url, params=..., headers=...)]: the prepared URL is the
    URL, a question mark and the encoded parameters, in the order of the
    dict. *)
Definition session_get_params (u : string) (params : list (string * string))
    (h : gmap string string) : M Session Response :=
  session_request GET (u ++ "?" ++ urlencode params) NoData h.

Definition export_params (token generate_type : string) (start end_ : date)
  : list (string * string) :=
  [("nonce", token);
   ("generate", generate_type);
   ("start", strftime start "%Y-%m-%d");
   ("end", strftime end_ "%Y-%m-%d")].

Definition export_headers : gmap string string :=
  <["sec-fetch-dest" := "document"]>
  (<["sec-fetch-mode" := "navigate"]>
  (<["sec-fetch-site" := "same-origin"]> ∅)).

Definition _fetch_export (token generate_type : string) (start end_ : date)
  : M Session string :=
  response <- session_get_params EXPORT_URL
                (export_params token generate_type start end_)
                export_headers ;;
  if negb (status_code response =? 200)%Z then
    raise (ExportError
             ("Export failed with status " ++ pretty (status_code response)
              ++ ": " ++ py_prefix 200 (text response)))
  else ret (text response).

Definition export_servings (token : string) (start end_ : date)
  : M Session string :=
  _fetch_export token "servings" start end_.

Definition export_daily_nutrition (token : string) (start end_ : date)
  : M Session string :=
  _fetch_export token "dailySummary" start end_.

Definition export_biometrics (token : string) (start end_ : date)
  : M Session string :=
  _fetch_export token "biometrics" start end_.

Definition export_notes (token : string) (start end_ : date)
  : M Session string :=
  _fetch_export token "notes" start end_.

Definition export_exercises (token : string) (start end_ : date)
  : M Session string :=
  _fetch_export token "exercises" start end_.

Definition get_servings_raw (start end_ : date) : M CronometerClient string :=
  token <- _get_export_token ;;
  on_session (export_servings token start end_).

Definition get_daily_nutrition_raw (start end_ : date)
  : M CronometerClient string :=
  token <- _get_export_token ;;
  on_session (export_daily_nutrition token start end_).

Definition get_biometrics_raw (start end_ : date)
  : M CronometerClient string :=
  token <- _get_export_token ;;
  on_session (export_biometrics token start end_).

Definition get_notes_raw (start end_ : date) : M CronometerClient string :=
  token <- _get_export_token ;;
  on_session (export_notes token start end_).

Definition get_exercises_raw (start end_ : date)
  : M CronometerClient string :=
  token <- _get_export_token ;;
  on_session (export_exercises token start end_).

(** The five raw retrieval methods, each with the [generate] value its
    export function passes. *)
Definition raw_methods
  : list (string * (date -> date -> M CronometerClient string)) :=
  [("servings", get_servings_raw);
   ("dailySummary", get_daily_nutrition_raw);
   ("biometrics", get_biometrics_raw);
   ("notes", get_notes_raw);
   ("exercises", get_exercises_raw)].

(** The request an export issues. *)
Definition export_request (token generate_type : string) (start end_ : date)
    (jar : gmap string string) : Request :=
  mkRequest GET
    (EXPORT_URL ++ "?" ++ urlencode (export_params token generate_type start end_))
    NoData export_headers jar.

Definition export_error (response : Response) : string :=
  "Export failed with status " ++ pretty (status_code response) ++ ": "
  ++ py_prefix 200 (text response).

End Exports.

(** Instances for the runs: a date kept as its ISO text, and a query
    string without escaping. *)
Definition iso_strftime (d : string) (fmt : string) : string := d.

Fixpoint plain_urlencode (params : list (string * string)) : string :=
  match params with
  | [] => ""
  | [(k, v)] => k ++ "=" ++ v
  | (k, v) :: rest => k ++ "=" ++ v ++ "&" ++ plain_urlencode rest
  end.




(** ** parsers.py and models.py *)

(** [str.isspace] on the 8-bit characters, and [str.strip()]. *)
Definition is_space (c : ascii) : bool :=
  let n := nat_of_ascii c in
  ((9 <=? n) && (n <=? 13) || (28 <=? n) && (n <=? 32)
   || (n =? 133) || (n =? 160))%nat.

Fixpoint lstrip (s : string) : string :=
  match s with
  | String c s' => if is_space c then lstrip s' else s
  | EmptyString => EmptyString
  end.

Fixpoint rstrip (s : string) : string :=
  match s with
  | String c s' =>
      match rstrip s' with
      | EmptyString => if is_space c then EmptyString else String c EmptyString
      | r => String c r
      end
  | EmptyString => EmptyString
  end.

Definition strip (s : string) : string := rstrip (lstrip s).

(** The exceptions the parsers can let through. *)
Inductive parse_error := ValueError | TypeError.

(** The loop [for row in reader: ...; out.append(...)]: the first row
    that raises ends the parse. *)
Fixpoint for_rows {R A : Type} (body : R -> parse_error + A) (rows : list R)
  : parse_error + list A :=
  match rows with
  | [] => inr []
  | row :: rest =>
      match body row with
      | inl e => inl e
      | inr a =>
          match for_rows body rest with
          | inl e => inl e
          | inr out => inr (a :: out)
          end
      end
  end.

Section Parsers.

(** Library values and functions, taken as they come: Python's [float]
    with [float(s)] ([None] for a [ValueError]) and [0.0]; [datetime],
    [date], [datetime.strptime(s, fmt)] ([None] for a [ValueError]) and
    [datetime.date()]; and [csv.DictReader], which turns the text into
    rows.  A row maps column names to values, a value being [None] where
    the line was shorter than the header (the surplus cells of a longer
    line, which the reader keeps apart from the named columns, are not
    part of a row here). *)
Variable float : Type.
Variable zero : float.
Variable py_float : string -> option float.
Variable datetime : Type.
Variable pydate : Type.
Variable strptime : string -> string -> option datetime.
Variable to_date : datetime -> pydate.
Variable DictReader : string -> list (gmap string (option string)).

(** [row.get(key)] and [row.get(key, dflt)]. *)
Definition row_get (row : gmap string (option string)) (key : string)
  : option string :=
  match row !! key with
  | Some v => v
  | None => None
  end.

Definition row_get_or (row : gmap string (option string)) (key dflt : string)
  : option string :=
  match row !! key with
  | Some v => v
  | None => Some dflt
  end.

(** [a or b] on two [str | None]. *)
Definition or_else (a b : option string) : option string :=
  if truthy a then a else b.

(** [f"{x}"] of a [str | None]. *)
Definition format_opt (x : option string) : string :=
  match x with
  | Some s => s
  | None => "None"
  end.

Definition _parse_float (value : option string) (dflt : float) : float :=
  match value with
  | Some (String c v) =>
      if String.eqb (strip (String c v)) "" then dflt
      else match py_float (String c v) with
           | Some x => x
           | None => dflt
           end
  | _ => dflt
  end.

(** [datetime.strptime(date_str, fmt)]: a [str] is required. *)
Definition strptime_opt (date_str : option string) (fmt : string)
  : parse_error + datetime :=
  match date_str with
  | None => inl TypeError
  | Some d =>
      match strptime d fmt with
      | Some dt => inr dt
      | None => inl ValueError
      end
  end.

Definition _parse_datetime (date_str time_str : option string)
  : parse_error + datetime :=
  let date_only := strptime_opt date_str "%Y-%m-%d" in
  match time_str with
  | Some (String c t) =>
      match strptime (format_opt date_str ++ " " ++ String c t)
              "%Y-%m-%d %H:%M" with
      | Some dt => inr dt
      | None => date_only
      end
  | _ => date_only
  end.

Definition _parse_date (date_str : option string) : parse_error + pydate :=
  match strptime_opt date_str "%Y-%m-%d" with
  | inr dt => inr (to_date dt)
  | inl e => inl e
  end.

(** The date and time cells every parser reads. *)
Definition row_date (row : gmap string (option string)) : option string :=
  or_else (row_get row "Day")
    (or_else (row_get row "Date") (row_get_or row "date" "")).

Definition row_time (row : gmap string (option string)) : option string :=
  or_else (row_get row "Time") (row_get_or row "time" "").

Record Serving := mkServing {
  s_logged_at : datetime;
  s_food_name : string;
  s_serving_size : string;
  s_calories : float;
  s_protein_g : float;
  s_carbs_g : float;
  s_fat_g : float;
  s_fiber_g : float;
  s_sugar_g : float;
  s_sodium_mg : float;
  s_cholesterol_mg : float;
  s_saturated_fat_g : float;
  s_group : option string;
  s_raw_data : gmap string (option string)
}.

Record BiometricEntry := mkBiometricEntry {
  b_logged_at : datetime;
  b_metric : string;
  b_value : float;
  b_unit : string;
  b_raw_data : gmap string (option string)
}.

Record Note := mkNote {
  n_logged_at : datetime;
  n_content : string;
  n_raw_data : gmap string (option string)
}.

Record DailyNutrition := mkDailyNutrition {
  d_date : pydate;
  d_calories : float;
  d_protein_g : float;
  d_carbs_g : float;
  d_fat_g : float;
  d_fiber_g : float;
  d_sugar_g : float;
  d_sodium_mg : float;
  d_raw_data : gmap string (option string)
}.

Record Exercise := mkExercise {
  e_logged_at : datetime;
  e_name : string;
  e_duration_minutes : float;
  e_calories_burned : float;
  e_raw_data : gmap string (option string)
}.

Definition serving_of_row (row : gmap string (option string))
  : parse_error + Serving :=
  match _parse_datetime (row_date row) (row_time row) with
  | inl e => inl e
  | inr logged_at =>
      inr {| s_logged_at := logged_at;
             s_food_name :=
               py_or (or_else (row_get row "Food Name") (row_get row "Name")) "";
             s_serving_size :=
               py_or (or_else (row_get row "Amount") (row_get row "Serving")) "";
             s_calories :=
               _parse_float (or_else (row_get row "Energy (kcal)")
                               (row_get_or row "Calories" "")) zero;
             s_protein_g :=
               _parse_float (or_else (row_get row "Protein (g)")
                               (row_get_or row "Protein" "")) zero;
             s_carbs_g :=
               _parse_float (or_else (row_get row "Carbs (g)")
                               (row_get_or row "Carbohydrates" "")) zero;
             s_fat_g :=
               _parse_float (or_else (row_get row "Fat (g)")
                               (row_get_or row "Fat" "")) zero;
             s_fiber_g :=
               _parse_float (or_else (row_get row "Fiber (g)")
                               (row_get_or row "Fiber" "")) zero;
             s_sugar_g :=
               _parse_float (or_else (row_get row "Sugars (g)")
                               (row_get_or row "Sugar" "")) zero;
             s_sodium_mg :=
               _parse_float (or_else (row_get row "Sodium (mg)")
                               (row_get_or row "Sodium" "")) zero;
             s_cholesterol_mg :=
               _parse_float (row_get_or row "Cholesterol (mg)" "") zero;
             s_saturated_fat_g :=
               _parse_float (row_get_or row "Saturated (g)" "") zero;
             s_group := or_else (row_get row "Food Group") (row_get row "Group");
             s_raw_data := row |}
  end.

Definition parse_servings (csv_text : string) : parse_error + list Serving :=
  for_rows serving_of_row (DictReader csv_text).

Definition biometric_of_row (row : gmap string (option string))
  : parse_error + BiometricEntry :=
  match _parse_datetime (row_date row) (row_time row) with
  | inl e => inl e
  | inr logged_at =>
      inr {| b_logged_at := logged_at;
             b_metric :=
               py_or (or_else (row_get row "Metric")
                        (or_else (row_get row "Name") (row_get row "Type"))) "";
             b_value :=
               _parse_float (or_else (row_get row "Amount")
                               (row_get_or row "Value" "")) zero;
             b_unit := py_or (row_get row "Unit") "";
             b_raw_data := row |}
  end.

Definition parse_biometrics (csv_text : string)
  : parse_error + list BiometricEntry :=
  for_rows biometric_of_row (DictReader csv_text).

Definition note_of_row (row : gmap string (option string))
  : parse_error + Note :=
  match _parse_datetime (row_date row) (row_time row) with
  | inl e => inl e
  | inr logged_at =>
      inr {| n_logged_at := logged_at;
             n_content :=
               py_or (or_else (row_get row "Note")
                        (or_else (row_get row "Content") (row_get row "Text")))
                 "";
             n_raw_data := row |}
  end.

Definition parse_notes (csv_text : string) : parse_error + list Note :=
  for_rows note_of_row (DictReader csv_text).

Definition daily_of_row (row : gmap string (option string))
  : parse_error + DailyNutrition :=
  match _parse_date (row_date row) with
  | inl e => inl e
  | inr day =>
      inr {| d_date := day;
             d_calories :=
               _parse_float (or_else (row_get row "Energy (kcal)")
                               (row_get_or row "Calories" "")) zero;
             d_protein_g :=
               _parse_float (or_else (row_get row "Protein (g)")
                               (row_get_or row "Protein" "")) zero;
             d_carbs_g :=
               _parse_float (or_else (row_get row "Carbs (g)")
                               (row_get_or row "Carbohydrates" "")) zero;
             d_fat_g :=
               _parse_float (or_else (row_get row "Fat (g)")
                               (row_get_or row "Fat" "")) zero;
             d_fiber_g :=
               _parse_float (or_else (row_get row "Fiber (g)")
                               (row_get_or row "Fiber" "")) zero;
             d_sugar_g :=
               _parse_float (or_else (row_get row "Sugars (g)")
                               (row_get_or row "Sugar" "")) zero;
             d_sodium_mg :=
               _parse_float (or_else (row_get row "Sodium (mg)")
                               (row_get_or row "Sodium" "")) zero;
             d_raw_data := row |}
  end.

Definition parse_daily_nutrition (csv_text : string)
  : parse_error + list DailyNutrition :=
  for_rows daily_of_row (DictReader csv_text).

Definition exercise_of_row (row : gmap string (option string))
  : parse_error + Exercise :=
  match _parse_datetime (row_date row) (row_time row) with
  | inl e => inl e
  | inr logged_at =>
      inr {| e_logged_at := logged_at;
             e_name :=
               py_or (or_else (row_get row "Exercise") (row_get row "Name")) "";
             e_duration_minutes :=
               _parse_float (or_else (row_get row "Minutes")
                               (row_get_or row "Duration" "")) zero;
             e_calories_burned :=
               _parse_float (or_else (row_get row "Calories Burned")
                               (row_get_or row "Calories" "")) zero;
             e_raw_data := row |}
  end.

Definition parse_exercises (csv_text : string) : parse_error + list Exercise :=
  for_rows exercise_of_row (DictReader csv_text).

End Parsers.

(** Stand-ins for the runs of the parsers: a float kept as its literal
    (digits only), a date or date-time kept as its text and accepted by
    its length alone, and a reader that yields given rows. *)
Definition literal_float (s : string) : option string :=
  if all_digits s && negb (String.eqb s "") then Some s else None.

Definition length_strptime (s fmt : string) : option string :=
  if String.eqb fmt "%Y-%m-%d" then
    if (String.length s =? 10)%nat then Some s else None
  else if (String.length s =? 16)%nat then Some s else None.

Definition given_rows (rows : list (gmap string (option string)))
  : string -> list (gmap string (option string)) :=
  fun _ => rows.

Definition oatmeal_row : gmap string (option string) :=
  <["Day" := Some "2024-01-15"]>
  (<["Time" := Some "08:30"]>
  (<["Food Name" := Some "Oatmeal"]>
  (<["Amount" := Some "1 cup"]>
  (<["Energy (kcal)" := Some "150"]>
  (<["Calories" := Some "999"]> ∅))))).

Definition odd_row : gmap string (option string) :=
  <["Day" := Some "2024-01-16"]>
  (<["Time" := Some "late"]>
  (<["Food Name" := Some "Soup"]>
  (<["Energy (kcal)" := Some "n/a"]>
  (<["Calories" := Some "120"]> ∅)))).



(** * Properties *)

(** ** The repository's unit tests (tests/test_gwt.py), on the model *)

Example test_returns_defaults :
  permutation (get_gwt_config ∅ None None) = DEFAULT_GWT_PERMUTATION
  /\ header (get_gwt_config ∅ None None) = DEFAULT_GWT_HEADER.
Proof. split; reflexivity. Qed.

Example test_parameter_overrides :
  permutation (get_gwt_config ∅ (Some "CUSTOM_PERM") (Some "CUSTOM_HEAD"))
  = "CUSTOM_PERM"
  /\ header (get_gwt_config ∅ (Some "CUSTOM_PERM") (Some "CUSTOM_HEAD"))
     = "CUSTOM_HEAD".
Proof. split; reflexivity. Qed.

Example test_env_var_overrides :
  permutation
    (get_gwt_config
       (<["CRONOMETER_GWT_PERMUTATION" := "ENV_PERM"]>
        (<["CRONOMETER_GWT_HEADER" := "ENV_HEAD"]> ∅)) None None) = "ENV_PERM"
  /\ header
       (get_gwt_config
          (<["CRONOMETER_GWT_PERMUTATION" := "ENV_PERM"]>
           (<["CRONOMETER_GWT_HEADER" := "ENV_HEAD"]> ∅)) None None)
     = "ENV_HEAD".
Proof. split; reflexivity. Qed.

Example test_parameter_overrides_env_var :
  permutation
    (get_gwt_config {["CRONOMETER_GWT_PERMUTATION" := "ENV_PERM"]}
       (Some "PARAM_PERM") None) = "PARAM_PERM".
Proof. reflexivity. Qed.

Example test_builds_correct_headers :
  build_gwt_headers (get_gwt_config ∅ None None) !! "content-type"
  = Some "text/x-gwt-rpc; charset=UTF-8"
  /\ build_gwt_headers (get_gwt_config ∅ None None) !! "x-gwt-module-base"
     = Some "https://cronometer.com/cronometer/"
  /\ build_gwt_headers (get_gwt_config ∅ None None) !! "x-gwt-permutation"
     = Some (permutation (get_gwt_config ∅ None None)).
Proof. repeat split; reflexivity. Qed.

Example test_parses_user_id :
  parse_user_id "//OK[12345,2,1,...]" = Some "12345".
Proof. reflexivity. Qed.

Example test_user_id_none_for_invalid :
  parse_user_id "some invalid response" = None.
Proof. reflexivity. Qed.

Example test_parses_token :
  parse_auth_token ("//OK[" ++ quoted "abc123def456" ++ "]")
  = Some "abc123def456".
Proof. reflexivity. Qed.

Example test_token_none_for_invalid :
  parse_auth_token "some invalid response" = None.
Proof. reflexivity. Qed.

(** A complete handshake against a scripted service, then a minted
    token. *)
Example login_then_token :
  let service :=
    scripted [login_page; login_accepted; rpc_reply "//OK[12345,2,1,...]";
              rpc_reply ("//OK[" ++ quoted "abc123def456" ++ "]")] in
  let (r, client) :=
    login str_of_json "user@example.com" "secret"
      (new_client ∅ service None None) in
  r = Return tt
  /\ _user_id client = Some "12345" /\ _nonce client = Some "nonce456"
  /\ map url (sent (_session client))
     = [LOGIN_PAGE_URL; LOGIN_API_URL; GWT_API_URL]
  /\ fst (_get_export_token client) = Return "abc123def456".
Proof. repeat split; reflexivity. Qed.


(** ** Strings *)

Lemma str_app_assoc (a b c : string) : (a ++ b) ++ c = a ++ (b ++ c).
Proof. induction a as [|x a IH]; simpl; [reflexivity | now rewrite IH]. Qed.

Lemma str_app_nil_r (a : string) : a ++ "" = a.
Proof. induction a as [|x a IH]; simpl; [reflexivity | now rewrite IH]. Qed.

Lemma str_length_app (a b : string) :
  String.length (a ++ b) = (String.length a + String.length b)%nat.
Proof. induction a as [|x a IH]; simpl; [reflexivity | now rewrite IH]. Qed.

Lemma substring_prefix_app (a b : string) :
  String.substring 0 (String.length a) (a ++ b) = a.
Proof. induction a as [|x a IH]; simpl; [now destruct b | now rewrite IH]. Qed.

(** The text of group 1 when it was opened at [a ++ b] and closed at [b]. *)
Lemma group1_app (a b : string) : Re.group1 (a ++ b, b) = a.
Proof.
  unfold Re.group1; simpl. rewrite str_length_app.
  replace (String.length a + String.length b - String.length b)%nat
    with (String.length a) by lia.
  apply substring_prefix_app.
Qed.

Lemma py_prefix_length (n : nat) (s : string) :
  (String.length (py_prefix n s) <= n)%nat.
Proof.
  unfold py_prefix. revert s.
  induction n as [|n IH]; intros [|c s]; simpl; try lia.
  specialize (IH s). lia.
Qed.

Lemma py_prefix_is_prefix (n : nat) (s : string) :
  exists rest, s = py_prefix n s ++ rest.
Proof.
  unfold py_prefix. revert s.
  induction n as [|n IH]; intros [|c s]; simpl.
  - now exists "".
  - now exists (String c s).
  - now exists "".
  - destruct (IH s) as [r Hr]. exists r. now rewrite <- Hr.
Qed.

Lemma py_prefix_short (n : nat) (s : string) :
  (String.length s <= n)%nat -> py_prefix n s = s.
Proof.
  unfold py_prefix. revert s.
  induction n as [|n IH]; intros [|c s]; simpl; intros H;
    try reflexivity; try lia.
  rewrite IH; [reflexivity | lia].
Qed.

Lemma py_prefix_long (n : nat) (s : string) :
  (n <= String.length s)%nat -> String.length (py_prefix n s) = n.
Proof.
  unfold py_prefix. revert s.
  induction n as [|n IH]; intros [|c s]; simpl; intros H;
    try reflexivity; try lia.
  rewrite IH; [reflexivity | lia].
Qed.

(** ** The matcher *)

Lemma search_found (p : Re.regex) (s : string) (m : Re.span) :
  Re.search p s = Some m ->
  exists pre suf, s = pre ++ suf /\ Re.match_here p suf (suf, suf) = Some m.
Proof.
  induction s as [|c s IH]; simpl.
  - destruct (Re.match_here p "" ("", "")) eqn:E; [|discriminate].
    intros [= <-]. now exists "", "".
  - destruct (Re.match_here p (String c s) (String c s, String c s)) eqn:E.
    + intros [= <-]. now exists "", (String c s).
    + intros H. destruct (IH H) as (pre & suf & -> & Hm).
      now exists (String c pre), suf.
Qed.

Lemma search_none (p : Re.regex) (s : string) :
  Re.search p s = None ->
  forall pre suf, s = pre ++ suf -> Re.match_here p suf (suf, suf) = None.
Proof.
  induction s as [|c s IH]; simpl.
  - destruct (Re.match_here p "" ("", "")) eqn:E; [discriminate|].
    intros _ [|x pre] suf; simpl; [now intros <- | discriminate].
  - destruct (Re.match_here p (String c s) (String c s, String c s)) eqn:E;
      [discriminate|].
    intros H [|x pre] suf; simpl.
    + now intros <-.
    + intros [= -> ->]. now apply (IH H pre suf).
Qed.

Lemma search_skip (p : Re.regex) (pre suf : string) :
  (forall a b, pre = a ++ b -> b <> "" ->
               Re.match_here p (b ++ suf) (b ++ suf, b ++ suf) = None) ->
  Re.search p (pre ++ suf) = Re.search p suf.
Proof.
  induction pre as [|c pre IH]; intros H; simpl; [reflexivity|].
  change (String c (pre ++ suf)) with (String c pre ++ suf).
  rewrite (H "" (String c pre) eq_refl) by discriminate.
  apply IH. intros a b -> Hb. apply (H (String c a) b); [reflexivity | exact Hb].
Qed.

Lemma search_here (p : Re.regex) (s : string) (m : Re.span) :
  Re.match_here p s (s, s) = Some m -> Re.search p s = Some m.
Proof. intros H. destruct s; simpl; now rewrite H. Qed.

Lemma greedy_ext (a : Re.atom) (k k' : string -> option Re.span) (s : string) :
  (forall r, k r = k' r) -> Re.greedy a k s = Re.greedy a k' s.
Proof.
  intros E. induction s as [|c s IH]; simpl; [apply E|].
  rewrite IH, E. reflexivity.
Qed.

(** ** The user-id pattern *)

Lemma uid_tail (r : string) (g : Re.span) :
  Re.match_here [Re.Close; Re.Item (Re.Lit ",") Re.One] r g = comma_k (fst g) r.
Proof. destruct r as [|c r]; simpl; [reflexivity | now destruct (Ascii.eqb c ",")]. Qed.

Lemma greedy_digits_comma (st d rest : string) :
  all_digits d = true ->
  Re.greedy Re.Digit (comma_k st) (d ++ String "," rest)
  = Some (st, String "," rest).
Proof.
  induction d as [|c d IH]; simpl; [reflexivity|].
  intros [Hc Hd]%andb_true_iff. rewrite Hc, (IH Hd). reflexivity.
Qed.

Lemma greedy_digits_sound (st s : string) (m : Re.span) :
  Re.greedy Re.Digit (comma_k st) s = Some m ->
  exists d rest,
    s = d ++ String "," rest /\ all_digits d = true /\ m = (st, String "," rest).
Proof.
  assert (K : forall r, comma_k st r = Some m ->
            exists rest, r = String "," rest /\ m = (st, String "," rest)).
  { intros [|c r]; simpl; [discriminate|].
    destruct (Ascii.eqb_spec c ","); [|discriminate].
    subst c. intros [= <-]. now exists r. }
  induction s as [|c s IH]; simpl.
  - discriminate.
  - destruct (is_digit c) eqn:Hc.
    + destruct (Re.greedy Re.Digit (comma_k st) s) eqn:G.
      * intros [= <-]. destruct (IH eq_refl) as (d & rest & -> & Hd & ->).
        exists (String c d), rest. simpl. now rewrite Hc, Hd.
      * intros H. destruct (K (String c s) H) as (rest & E & ->).
        now exists "", rest.
    + intros H. destruct (K (String c s) H) as (rest & E & ->).
      now exists "", rest.
Qed.

Lemma match_uid_unfold (s : string) (g : Re.span) :
  Re.match_here USER_ID_PATTERN s g =
  match s with
  | String c1 (String c2 (String c3 (String c4 t))) =>
      if Ascii.eqb c1 "O" && Ascii.eqb c2 "K" && Ascii.eqb c3 "["
         && is_digit c4
      then Re.greedy Re.Digit (comma_k (String c4 t)) t
      else None
  | _ => None
  end.
Proof.
  destruct s as [|c1 [|c2 [|c3 [|c4 t]]]]; simpl;
    repeat match goal with
           | |- context [Ascii.eqb ?x ?y] => destruct (Ascii.eqb x y)
           end; reflexivity.
Qed.

Lemma match_uid_complete (d rest : string) (g : Re.span) :
  d <> "" -> all_digits d = true ->
  Re.match_here USER_ID_PATTERN ("OK[" ++ d ++ "," ++ rest) g
  = Some (d ++ "," ++ rest, "," ++ rest).
Proof.
  destruct d as [|c d]; [congruence|]. intros _.
  intros [Hc Hd]%andb_true_iff. rewrite match_uid_unfold. simpl.
  rewrite Hc. simpl. now apply greedy_digits_comma.
Qed.

Lemma match_uid_sound (s : string) (g m : Re.span) :
  Re.match_here USER_ID_PATTERN s g = Some m ->
  exists d rest,
    s = "OK[" ++ d ++ "," ++ rest /\ d <> "" /\ all_digits d = true
    /\ m = (d ++ "," ++ rest, "," ++ rest).
Proof.
  rewrite match_uid_unfold.
  destruct s as [|c1 [|c2 [|c3 [|c4 t]]]]; try discriminate.
  destruct (Ascii.eqb_spec c1 "O"); [subst|discriminate].
  destruct (Ascii.eqb_spec c2 "K"); [subst|discriminate].
  destruct (Ascii.eqb_spec c3 "["); [subst|discriminate].
  destruct (is_digit c4) eqn:H4; [|discriminate]. simpl.
  intros H. apply greedy_digits_sound in H as (d & rest & -> & Hd & ->).
  exists (String c4 d), rest. simpl. rewrite H4, Hd. repeat split. discriminate.
Qed.

(** A match cannot start inside a prefix and run into a following [O]. *)
Lemma digits_then_comma_inside (d f x rest : string) :
  all_digits d = true ->
  f ++ String "O" x = d ++ "," ++ rest ->
  exists f', f = d ++ "," ++ f'.
Proof.
  revert f. induction d as [|c d IH]; intros f; simpl.
  - intros _. destruct f as [|c' f]; simpl; [discriminate|].
    intros [= -> _]. now exists f.
  - intros [Hc Hd]%andb_true_iff. destruct f as [|c' f]; simpl.
    + intros [= <- _]. discriminate.
    + intros [= -> E]. destruct (IH f Hd E) as [f' ->]. now exists f'.
Qed.

Lemma match_uid_boundary (f x : string) (g g' : Re.span) :
  f <> "" ->
  Re.match_here USER_ID_PATTERN f g = None ->
  Re.match_here USER_ID_PATTERN (f ++ String "O" x) g' = None.
Proof.
  intros Hf Hn.
  destruct (Re.match_here USER_ID_PATTERN (f ++ String "O" x) g') eqn:E;
    [exfalso | reflexivity].
  apply match_uid_sound in E as (d & rest & E & Hd & Hall & _).
  destruct f as [|c1 f]; [congruence|].
  destruct f as [|c2 f]; [discriminate|].
  destruct f as [|c3 f]; [discriminate|].
  simpl in E. injection E as -> -> -> E.
  destruct (digits_then_comma_inside d f x rest Hall E) as [f' ->].
  pose proof (match_uid_complete d f' g Hd Hall) as C.
  enough (Some (d ++ "," ++ f', "," ++ f') = @None Re.span) by discriminate.
  etransitivity; [symmetry; exact C | exact Hn].
Qed.

Lemma parse_user_id_sound (s u : string) :
  parse_user_id s = Some u ->
  exists pre post,
    s = pre ++ "OK[" ++ u ++ "," ++ post /\ u <> "" /\ all_digits u = true.
Proof.
  unfold parse_user_id.
  destruct (Re.search USER_ID_PATTERN s) as [m|] eqn:E; [|discriminate].
  intros [= <-].
  apply search_found in E as (pre & suf & -> & E).
  apply match_uid_sound in E as (d & rest & -> & Hd & Hall & ->).
  exists pre, rest. change ("," ++ rest) with (String "," rest).
  change (d ++ String "," rest) with (d ++ "," ++ rest).
  rewrite group1_app. auto.
Qed.

Lemma parse_user_id_none_iff (s : string) :
  parse_user_id s = None <-> ~ has_user_id_pattern s.
Proof.
  split.
  - unfold parse_user_id.
    destruct (Re.search USER_ID_PATTERN s) eqn:E; [discriminate|].
    intros _ (pre & d & post & -> & Hd & Hall).
    pose proof (search_none _ _ E pre _ eq_refl) as N.
    rewrite (match_uid_complete d post _ Hd Hall) in N. discriminate.
  - intros N. destruct (parse_user_id s) as [u|] eqn:E; [|reflexivity].
    exfalso. apply N. apply parse_user_id_sound in E as (pre & post & -> & ? & ?).
    now exists pre, u, post.
Qed.

Lemma parse_user_id_framed (framing uid rest : string) :
  uid <> "" -> all_digits uid = true ->
  parse_user_id framing = None ->
  parse_user_id (framing ++ "OK[" ++ uid ++ "," ++ rest) = Some uid.
Proof.
  intros Hu Hall Hf. unfold parse_user_id in *.
  destruct (Re.search USER_ID_PATTERN framing) eqn:E; [discriminate|].
  rewrite search_skip.
  - rewrite (search_here _ _ _ (match_uid_complete uid rest _ Hu Hall)).
    now rewrite group1_app.
  - intros a b -> Hb. apply match_uid_boundary with (g := (b, b)); [exact Hb|].
    now apply (search_none _ _ E a b).
Qed.

(** ** The token pattern *)

Lemma match_tok_unfold (s : string) (g : Re.span) :
  Re.match_here TOKEN_PATTERN s g =
  match s with
  | String c s' =>
      if Ascii.eqb c dquote then Re.greedy Re.Dot (quote_k s') s' else None
  | EmptyString => None
  end.
Proof.
  destruct s as [|c s]; simpl; [reflexivity|].
  destruct (Ascii.eqb c dquote); reflexivity.
Qed.

Lemma dquote_not_newline (c : ascii) :
  Ascii.eqb c dquote = true -> Ascii.eqb c newline = false.
Proof. intros ->%Ascii.eqb_eq. reflexivity. Qed.

Lemma greedy_dot_none (st s : string) :
  Re.greedy Re.Dot (quote_k st) s = None <-> quote_free_line s = true.
Proof.
  induction s as [|c s IH]; simpl; [tauto|].
  destruct (Ascii.eqb c newline) eqn:Hn; simpl.
  - destruct (Ascii.eqb c dquote) eqn:Hq; [|tauto].
    apply dquote_not_newline in Hq. congruence.
  - destruct (Re.greedy Re.Dot (quote_k st) s) eqn:G.
    + destruct (Ascii.eqb c dquote); split; try discriminate.
      intros H. apply IH in H. discriminate.
    + destruct (Ascii.eqb c dquote); [split; discriminate | tauto].
Qed.

Lemma greedy_dot_complete (st t post : string) :
  has_char newline t = false -> quote_free_line post = true ->
  Re.greedy Re.Dot (quote_k st) (t ++ q post) = Some (st, q post).
Proof.
  intros Ht Hp. induction t as [|c t IH]; simpl in *.
  - apply (greedy_dot_none st) in Hp. rewrite Hp. reflexivity.
  - apply orb_false_iff in Ht as [Hc Ht]. rewrite Hc. simpl.
    now rewrite (IH Ht).
Qed.

Lemma greedy_dot_sound (st s : string) (m : Re.span) :
  Re.greedy Re.Dot (quote_k st) s = Some m ->
  exists t post,
    s = t ++ q post /\ has_char newline t = false
    /\ quote_free_line post = true /\ m = (st, q post).
Proof.
  induction s as [|c s IH]; simpl; [discriminate|].
  destruct (Ascii.eqb c newline) eqn:Hn; simpl.
  - destruct (Ascii.eqb c dquote) eqn:Hq; [|discriminate].
    apply dquote_not_newline in Hq. congruence.
  - destruct (Re.greedy Re.Dot (quote_k st) s) eqn:G.
    + intros [= <-]. destruct (IH eq_refl) as (t & post & -> & Ht & Hp & ->).
      exists (String c t), post. simpl. now rewrite Hn, Ht.
    + destruct (Ascii.eqb_spec c dquote); [|discriminate].
      subst c. intros [= <-]. exists "", s. simpl.
      repeat split. now apply (greedy_dot_none st).
Qed.

Lemma quote_free_line_app (a b x : string) :
  quote_free_line (a ++ q b) = true -> quote_free_line (a ++ x) = true.
Proof.
  induction a as [|c a IH]; simpl; [discriminate|].
  destruct (Ascii.eqb c newline); [reflexivity|].
  destruct (Ascii.eqb c dquote); [discriminate | exact IH].
Qed.

Lemma search_tok_none (s : string) :
  Re.search TOKEN_PATTERN s = None <-> pair_free s = true.
Proof.
  induction s as [|c s IH]; [simpl; tauto|].
  cbn [Re.search pair_free]. rewrite match_tok_unfold.
  destruct (Ascii.eqb c dquote).
  - destruct (Re.greedy Re.Dot (quote_k s) s) eqn:G.
    + split; [discriminate|]. intros [H _]%andb_true_iff.
      apply (greedy_dot_none s) in H. congruence.
    + apply greedy_dot_none in G. rewrite G. simpl. exact IH.
  - simpl. exact IH.
Qed.

Lemma search_tok_complete (pre t post : string) :
  pair_free (pre ++ q "") = true ->
  has_char newline t = false -> quote_free_line post = true ->
  Re.search TOKEN_PATTERN (pre ++ q (t ++ q post))
  = Some (t ++ q post, q post).
Proof.
  intros Hpre Ht Hp. induction pre as [|c pre IH].
  - apply search_here. rewrite match_tok_unfold. simpl.
    now apply greedy_dot_complete.
  - change (String c pre ++ q (t ++ q post))
      with (String c (pre ++ q (t ++ q post))).
    cbn [Re.search]. rewrite match_tok_unfold.
    simpl in Hpre. apply andb_true_iff in Hpre as [H1 H2].
    destruct (Ascii.eqb c dquote).
    + apply quote_free_line_app with (x := q (t ++ q post)) in H1.
      apply (greedy_dot_none (pre ++ q (t ++ q post))) in H1.
      rewrite H1. now apply IH.
    + now apply IH.
Qed.

Lemma search_tok_sound (s : string) (m : Re.span) :
  Re.search TOKEN_PATTERN s = Some m ->
  exists pre t post,
    s = pre ++ q (t ++ q post) /\ pair_free (pre ++ q "") = true
    /\ has_char newline t = false /\ quote_free_line post = true
    /\ m = (t ++ q post, q post).
Proof.
  induction s as [|c s IH]; [discriminate|].
  cbn [Re.search]. rewrite match_tok_unfold.
  destruct (Ascii.eqb_spec c dquote) as [->|Hc].
  - destruct (Re.greedy Re.Dot (quote_k s) s) eqn:G.
    + intros [= <-].
      apply greedy_dot_sound in G as (t & post & -> & Ht & Hp & ->).
      now exists "", t, post.
    + intros H. destruct (IH H) as (pre & t & post & -> & Hpre & Ht & Hp & ->).
      exists (q pre), t, post. repeat split; try assumption.
      simpl. rewrite Hpre, andb_true_r.
      apply (greedy_dot_none (pre ++ q (t ++ q post))) in G.
      exact (quote_free_line_app _ _ (q "") G).
  - intros H. destruct (IH H) as (pre & t & post & -> & Hpre & Ht & Hp & ->).
    exists (String c pre), t, post. repeat split; try assumption.
    simpl. apply Ascii.eqb_neq in Hc. now rewrite Hc.
Qed.

Lemma quote_free_no_quote (s : string) :
  has_char dquote s = false -> quote_free_line s = true.
Proof.
  induction s as [|c s IH]; simpl; [reflexivity|].
  intros [Hc Hs]%orb_false_iff. rewrite Hc.
  destruct (Ascii.eqb c newline); auto.
Qed.

Lemma pair_free_no_quote (s : string) :
  has_char dquote s = false -> pair_free (s ++ q "") = true.
Proof.
  induction s as [|c s IH]; simpl; [reflexivity|].
  intros [Hc Hs]%orb_false_iff. rewrite Hc. simpl. auto.
Qed.

Lemma first_quoted_one (pre t rest : string) :
  has_char dquote pre = false -> has_char dquote t = false ->
  first_quoted (pre ++ q (t ++ q rest)) = Some t.
Proof.
  intros Hpre Ht. induction pre as [|c pre IH]; simpl in *.
  - clear Hpre. induction t as [|c t IH]; simpl in *; [reflexivity|].
    apply orb_false_iff in Ht as [Hc Ht]. rewrite Hc, (IH Ht). reflexivity.
  - apply orb_false_iff in Hpre as [Hc Hpre]. rewrite Hc. auto.
Qed.

(** The two line predicates, read on decompositions of the text. *)
Lemma quote_free_line_spec (s : string) :
  quote_free_line s = true <->
  (forall u v, s = u ++ q v -> has_char newline u = true).
Proof.
  induction s as [|c s IH]; simpl.
  - split; [|reflexivity]. intros _ [|x u] v; discriminate.
  - destruct (Ascii.eqb c newline) eqn:Hn.
    + split; [|reflexivity]. intros _ [|x u] v; simpl.
      * intros [= -> _]. discriminate.
      * intros [= <- _]. now rewrite Hn.
    + destruct (Ascii.eqb_spec c dquote) as [->|Hq].
      * split; [discriminate|]. intros H. exact (H "" s eq_refl).
      * rewrite IH. split; intros H u v.
        -- destruct u as [|x u]; simpl; [intros [= E _]; congruence|].
           intros [= <- E]. rewrite Hn. simpl. now apply (H u v).
        -- intros ->. specialize (H (String c u) v eq_refl).
           simpl in H. now rewrite Hn in H.
Qed.

Lemma pair_free_spec (s : string) :
  pair_free s = true <->
  (forall a u v, s = a ++ q (u ++ q v) -> has_char newline u = true).
Proof.
  induction s as [|c s IH]; simpl.
  - split; [|reflexivity]. intros _ [|x a] u v; discriminate.
  - rewrite andb_true_iff, IH. split.
    + intros [H1 H2] [|x a] u v; simpl.
      * intros [= -> ->]. rewrite Ascii.eqb_refl in H1.
        now apply (proj1 (quote_free_line_spec _) H1 u v).
      * intros [= _ E]. now apply (H2 a u v).
    + intros H. split.
      * destruct (Ascii.eqb_spec c dquote) as [->|]; [|reflexivity].
        apply quote_free_line_spec. intros u v ->. now apply (H "" u v).
      * intros a u v ->. now apply (H (String c a) u v).
Qed.

(** ** The codec: decoders *)

(** C4.  A response [framing ++ "OK[" ++ user_id ++ "," ++ rest], whose
    user id is a non-empty digit string and whose framing does not itself
    hold the pattern, decodes to exactly [user_id]; whatever the decoder
    returns is a non-empty digit run standing between [OK[] and a comma
    in the text, and a text without the pattern decodes to [None]; the
    decoder is a total function.  In particular [//OK[12345,2,1,...]]
    decodes to [12345]. *)
Theorem parse_user_id_roundtrip :
  forall framing user_id rest s,
    (user_id <> "" -> all_digits user_id = true ->
     ~ has_user_id_pattern framing ->
     parse_user_id (framing ++ "OK[" ++ user_id ++ "," ++ rest) = Some user_id)
    /\ (~ has_user_id_pattern s -> parse_user_id s = None)
    /\ (forall u, parse_user_id s = Some u ->
          exists pre post,
            s = pre ++ "OK[" ++ u ++ "," ++ post /\ u <> ""
            /\ all_digits u = true)
    /\ parse_user_id "//OK[12345,2,1,...]" = Some "12345".
Proof.
  intros framing user_id rest s.
  split.
  { intros Hu Hd Hf. apply parse_user_id_framed; auto.
    now apply parse_user_id_none_iff. }
  split; [apply parse_user_id_none_iff|].
  split; [|reflexivity].
  intros u H. now apply parse_user_id_sound.
Qed.

Lemma parse_user_id_roundtrip_witness :
  "12345" <> "" /\ all_digits "12345" = true /\ ~ has_user_id_pattern "//"
  /\ ~ has_user_id_pattern "some invalid response"
  /\ parse_user_id ("//" ++ "OK[" ++ "12345" ++ "," ++ "2,1,...]") = Some "12345"
  /\ parse_user_id "some invalid response" = None.
Proof.
  assert (F : ~ has_user_id_pattern "//")
    by (apply parse_user_id_none_iff; reflexivity).
  assert (N : ~ has_user_id_pattern "some invalid response")
    by (apply parse_user_id_none_iff; reflexivity).
  destruct (parse_user_id_roundtrip "//" "12345" "2,1,...]"
              "some invalid response") as (R & E & _).
  split; [discriminate|]. split; [reflexivity|]. split; [exact F|].
  split; [exact N|]. split.
  - apply R; [discriminate | reflexivity | exact F].
  - apply E. exact N.
Defined.

Lemma quoted_app (a b : string) : quoted a ++ b = q (a ++ q b).
Proof.
  unfold quoted, q. simpl. f_equal. rewrite str_app_assoc. reflexivity.
Qed.

Lemma parse_auth_token_complete (pre t post : string) :
  pair_free (pre ++ q "") = true -> has_char newline t = false ->
  quote_free_line post = true ->
  parse_auth_token (pre ++ q (t ++ q post)) = Some t.
Proof.
  intros H1 H2 H3. unfold parse_auth_token.
  rewrite (search_tok_complete pre t post H1 H2 H3).
  now rewrite group1_app.
Qed.

Lemma parse_auth_token_sound (s t : string) :
  parse_auth_token s = Some t ->
  exists pre post,
    s = pre ++ q (t ++ q post) /\ pair_free (pre ++ q "") = true
    /\ has_char newline t = false /\ quote_free_line post = true.
Proof.
  unfold parse_auth_token.
  destruct (Re.search TOKEN_PATTERN s) as [m|] eqn:E; [|discriminate].
  intros [= <-].
  apply search_tok_sound in E as (pre & t' & post & -> & H1 & H2 & H3 & ->).
  exists pre, post. now rewrite group1_app.
Qed.

(** An empty quoted string with no further double quote on its line
    decodes to the empty string. *)
Lemma parse_auth_token_empty (pre post : string) :
  has_char dquote pre = false -> quote_free_line post = true ->
  parse_auth_token (pre ++ quoted "" ++ post) = Some "".
Proof.
  intros H1 H2. rewrite quoted_app.
  apply parse_auth_token_complete; auto using pair_free_no_quote.
Qed.

(** C2, as the code has it.  The decoder returns [t] exactly when the text
    is [pre ++ q t q ++ post] where no double quote of [pre] shares a line
    with a later double quote, [t] holds no line feed, and [post] holds no
    double quote before its first line feed: the text between the first
    double quote that has a partner on its line and the LAST double quote
    of that line.  It returns [None] exactly when no two double quotes of
    the text lie on one line.  When the text holds a single quoted
    substring on one line this is the substring between the first pair of
    double quotes, and for an empty quoted string it is the empty string. *)
Theorem parse_auth_token_spec :
  forall s t,
    (parse_auth_token s = Some t <->
     exists pre post,
       s = pre ++ q (t ++ q post) /\ pair_free (pre ++ q "") = true
       /\ has_char newline t = false /\ quote_free_line post = true)
    /\ (parse_auth_token s = None <-> pair_free s = true)
    /\ (forall pre post,
          has_char dquote pre = false -> has_char dquote t = false ->
          has_char newline t = false -> quote_free_line post = true ->
          parse_auth_token (pre ++ quoted t ++ post) = Some t
          /\ first_quoted (pre ++ quoted t ++ post) = Some t)
    /\ (forall pre post,
          has_char dquote pre = false -> quote_free_line post = true ->
          parse_auth_token (pre ++ quoted "" ++ post) = Some "").
Proof.
  intros s t. split; [split|split; [|split]].
  - apply parse_auth_token_sound.
  - intros (pre & post & -> & H1 & H2 & H3).
    now apply parse_auth_token_complete.
  - unfold parse_auth_token. rewrite <- search_tok_none.
    destruct (Re.search TOKEN_PATTERN s); split; congruence.
  - intros pre post H1 H2 H3 H4. rewrite quoted_app. split.
    + apply parse_auth_token_complete; auto using pair_free_no_quote.
    + now apply first_quoted_one.
  - apply parse_auth_token_empty.
Qed.

Lemma parse_auth_token_spec_witness :
  has_char dquote "//OK[" = false /\ has_char dquote "abc123def456" = false
  /\ has_char newline "abc123def456" = false /\ quote_free_line "]" = true
  /\ parse_auth_token ("//OK[" ++ quoted "abc123def456" ++ "]")
     = Some "abc123def456"
  /\ parse_auth_token ("//OK[" ++ quoted "" ++ "]") = Some "".
Proof.
  destruct (parse_auth_token_spec "" "abc123def456") as (_ & _ & W & _).
  destruct (parse_auth_token_spec "" "") as (_ & _ & _ & W0).
  do 4 (split; [reflexivity|]). split.
  - apply (W "//OK[" "]"); reflexivity.
  - apply (W0 "//OK[" "]"); reflexivity.
Defined.

(** C2 as stated fails: with two quoted strings on one line the decoder
    returns everything from the first double quote to the last one, not
    the substring between the first pair. *)
Lemma parse_auth_token_not_first_pair :
  parse_auth_token ("//OK[" ++ quoted "a" ++ "," ++ quoted "b" ++ "]")
  = Some ("a" ++ q ("," ++ q "b"))
  /\ first_quoted ("//OK[" ++ quoted "a" ++ "," ++ quoted "b" ++ "]") = Some "a"
  /\ parse_auth_token ("//OK[" ++ quoted "a" ++ "," ++ quoted "b" ++ "]")
     <> first_quoted ("//OK[" ++ quoted "a" ++ "," ++ quoted "b" ++ "]").
Proof. split; [reflexivity | split; [reflexivity | discriminate]]. Qed.

(** ** The codec: configuration *)

(** C6, as the code has it.  For each of the two fields independently: a
    non-empty explicit argument is used; without one (no argument, or the
    empty string, which [or] treats alike) the environment variable is
    used when it is set; otherwise the built-in default.  The other two
    fields are always the built-in constants. *)
Theorem get_gwt_config_precedence :
  forall (environ : gmap string string) (perm hdr : option string),
    (forall p, perm = Some p -> p <> "" ->
       permutation (get_gwt_config environ perm hdr) = p)
    /\ (forall v, truthy perm = false ->
          environ !! ENV_GWT_PERMUTATION = Some v ->
          permutation (get_gwt_config environ perm hdr) = v)
    /\ (truthy perm = false -> environ !! ENV_GWT_PERMUTATION = None ->
          permutation (get_gwt_config environ perm hdr)
          = DEFAULT_GWT_PERMUTATION)
    /\ (forall h, hdr = Some h -> h <> "" ->
          header (get_gwt_config environ perm hdr) = h)
    /\ (forall v, truthy hdr = false ->
          environ !! ENV_GWT_HEADER = Some v ->
          header (get_gwt_config environ perm hdr) = v)
    /\ (truthy hdr = false -> environ !! ENV_GWT_HEADER = None ->
          header (get_gwt_config environ perm hdr) = DEFAULT_GWT_HEADER)
    /\ content_type (get_gwt_config environ perm hdr)
       = DEFAULT_GWT_CONTENT_TYPE
    /\ module_base (get_gwt_config environ perm hdr)
       = DEFAULT_GWT_MODULE_BASE.
Proof.
  intros environ perm hdr.
  unfold get_gwt_config, environ_get. simpl.
  split; [intros p -> Hp; destruct p; [congruence | reflexivity]|].
  split; [intros v Hp ->; destruct perm as [[|]|]; [reflexivity | discriminate | reflexivity]|].
  split; [intros Hp ->; destruct perm as [[|]|]; [reflexivity | discriminate | reflexivity]|].
  split; [intros h -> Hh; destruct h; [congruence | reflexivity]|].
  split; [intros v Hh ->; destruct hdr as [[|]|]; [reflexivity | discriminate | reflexivity]|].
  split; [intros Hh ->; destruct hdr as [[|]|]; [reflexivity | discriminate | reflexivity]|].
  split; reflexivity.
Qed.

Lemma get_gwt_config_precedence_witness :
  permutation (get_gwt_config {[ENV_GWT_PERMUTATION := "ENV_PERM"]}
                 (Some "PARAM_PERM") None) = "PARAM_PERM"
  /\ permutation (get_gwt_config {[ENV_GWT_PERMUTATION := "ENV_PERM"]}
                    None (Some "CUSTOM_HEAD")) = "ENV_PERM"
  /\ permutation (get_gwt_config ∅ None (Some "CUSTOM_HEAD"))
     = DEFAULT_GWT_PERMUTATION
  /\ header (get_gwt_config {[ENV_GWT_PERMUTATION := "ENV_PERM"]}
               None (Some "CUSTOM_HEAD")) = "CUSTOM_HEAD"
  /\ header (get_gwt_config {[ENV_GWT_HEADER := "ENV_HEAD"]} None None)
     = "ENV_HEAD"
  /\ header (get_gwt_config {[ENV_GWT_PERMUTATION := "ENV_PERM"]}
               (Some "PARAM_PERM") None) = DEFAULT_GWT_HEADER.
Proof.
  destruct (get_gwt_config_precedence {[ENV_GWT_PERMUTATION := "ENV_PERM"]}
              (Some "PARAM_PERM") None) as (A1 & _ & _ & _ & _ & A6 & _).
  destruct (get_gwt_config_precedence {[ENV_GWT_PERMUTATION := "ENV_PERM"]}
              None (Some "CUSTOM_HEAD")) as (_ & B2 & _ & B4 & _).
  destruct (get_gwt_config_precedence ∅ None (Some "CUSTOM_HEAD"))
    as (_ & _ & C3 & _).
  destruct (get_gwt_config_precedence {[ENV_GWT_HEADER := "ENV_HEAD"]}
              None None) as (_ & _ & _ & _ & D5 & _).
  split; [apply A1; [reflexivity | discriminate]|].
  split; [apply B2; reflexivity|].
  split; [apply C3; reflexivity|].
  split; [apply B4; [reflexivity | discriminate]|].
  split; [apply D5; reflexivity|].
  apply A6; reflexivity.
Defined.

(** C6 as stated fails: an explicit argument that is the empty string is
    supplied, yet the environment variable (or the default) is used. *)
Lemma get_gwt_config_empty_argument :
  permutation (get_gwt_config {[ENV_GWT_PERMUTATION := "ENV_PERM"]}
                 (Some "") None) = "ENV_PERM"
  /\ permutation (get_gwt_config {[ENV_GWT_PERMUTATION := "ENV_PERM"]}
                    (Some "") None) <> ""
  /\ header (get_gwt_config ∅ None (Some "")) = DEFAULT_GWT_HEADER
  /\ header (get_gwt_config ∅ None (Some "")) <> "".
Proof.
  split; [reflexivity|]. split; [discriminate|].
  split; [reflexivity | discriminate].
Qed.

(** ** The codec: encoders *)

Lemma split_on_field (sep : ascii) (a rest : string) :
  has_char sep a = false ->
  split_on sep (a ++ String sep rest) = a :: split_on sep rest.
Proof.
  induction a as [|c a IH]; simpl.
  - intros _. now rewrite Ascii.eqb_refl.
  - intros [Hc Ha]%orb_false_iff. rewrite Hc, (IH Ha). reflexivity.
Qed.

(** C8.  Both bodies are the fixed template with the configuration's
    header, the nonce and the user id at their substitution points; cut
    at the pipes (when the substituted values hold none) the fields are
    [7], [0], the segment count (5, resp. 8), that many strings starting
    with the module base URL and the header, and the method's footer,
    which for the token call holds the user id and the validity window
    3600. *)
Theorem request_bodies_follow_template :
  forall (config : GWTConfig) (nonce user_id : string),
    build_authenticate_body config
    = "7|0|5|" ++ DEFAULT_GWT_MODULE_BASE ++ "|" ++ header config
      ++ "|com.cronometer.shared.rpc.CronometerService|authenticate|"
      ++ "java.lang.Integer/3438268394|1|2|3|4|1|5|5|-300|"
    /\ build_generate_token_body config nonce user_id
       = "7|0|8|" ++ DEFAULT_GWT_MODULE_BASE ++ "|" ++ header config
         ++ "|com.cronometer.shared.rpc.CronometerService"
         ++ "|generateAuthorizationToken"
         ++ "|java.lang.String/2004016611|I"
         ++ "|com.cronometer.shared.user.AuthScope/2065601159|" ++ nonce
         ++ "|1|2|3|4|4|5|6|6|7|8|" ++ user_id ++ "|3600|7|2|"
    /\ (has_char "|" (header config) = false ->
        split_on "|" (build_authenticate_body config)
        = ["7"; "0"; "5";
           DEFAULT_GWT_MODULE_BASE; header config;
           "com.cronometer.shared.rpc.CronometerService"; "authenticate";
           "java.lang.Integer/3438268394";
           "1"; "2"; "3"; "4"; "1"; "5"; "5"; "-300"; ""])
    /\ (has_char "|" (header config) = false ->
        has_char "|" nonce = false -> has_char "|" user_id = false ->
        split_on "|" (build_generate_token_body config nonce user_id)
        = ["7"; "0"; "8";
           DEFAULT_GWT_MODULE_BASE; header config;
           "com.cronometer.shared.rpc.CronometerService";
           "generateAuthorizationToken";
           "java.lang.String/2004016611"; "I";
           "com.cronometer.shared.user.AuthScope/2065601159"; nonce;
           "1"; "2"; "3"; "4"; "4"; "5"; "6"; "6"; "7"; "8";
           user_id; "3600"; "7"; "2"; ""]).
Proof.
  intros config nonce user_id.
  split; [reflexivity|]. split.
  { unfold build_generate_token_body. simpl.
    rewrite ?str_app_assoc. reflexivity. }
  split.
  - intros Hh. unfold build_authenticate_body. simpl.
    rewrite (split_on_field _ _ _ Hh). reflexivity.
  - intros Hh Hn Hu. unfold build_generate_token_body. simpl.
    rewrite ?str_app_assoc. simpl.
    rewrite (split_on_field _ _ _ Hh). simpl.
    rewrite (split_on_field _ _ _ Hn). simpl.
    rewrite (split_on_field _ _ _ Hu). reflexivity.
Qed.

Lemma request_bodies_follow_template_witness :
  has_char "|" DEFAULT_GWT_HEADER = false
  /\ has_char "|" "test_nonce" = false /\ has_char "|" "12345" = false
  /\ nth 2 (split_on "|" (build_authenticate_body
                            (get_gwt_config ∅ None None))) "" = "5"
  /\ nth 22 (split_on "|" (build_generate_token_body
                             (get_gwt_config ∅ None None)
                             "test_nonce" "12345")) "" = "3600".
Proof.
  destruct (request_bodies_follow_template (get_gwt_config ∅ None None)
              "test_nonce" "12345") as (_ & _ & A & G).
  do 3 (split; [reflexivity|]). split.
  - rewrite A; reflexivity.
  - rewrite G; reflexivity.
Defined.

(** C9.  The encoders are functions of their arguments alone: equal
    configuration, nonce and user id give equal bodies and equal header
    maps; the bodies read nothing of the configuration but its header
    field, and the header map does not depend on the order in which its
    three entries are put in. *)
Theorem encoders_deterministic :
  forall (c1 c2 : GWTConfig) (n1 n2 u1 u2 : string),
    (c1 = c2 -> n1 = n2 -> u1 = u2 ->
     build_authenticate_body c1 = build_authenticate_body c2
     /\ build_generate_token_body c1 n1 u1 = build_generate_token_body c2 n2 u2
     /\ build_gwt_headers c1 = build_gwt_headers c2)
    /\ (header c1 = header c2 -> n1 = n2 -> u1 = u2 ->
        build_authenticate_body c1 = build_authenticate_body c2
        /\ build_generate_token_body c1 n1 u1
           = build_generate_token_body c2 n2 u2)
    /\ build_gwt_headers c1
       = <["x-gwt-permutation" := permutation c1]>
         (<["x-gwt-module-base" := module_base c1]>
         (<["content-type" := content_type c1]> ∅)).
Proof.
  intros c1 c2 n1 n2 u1 u2. split; [|split].
  - intros -> -> ->. auto.
  - intros H -> ->. unfold build_authenticate_body, build_generate_token_body.
    rewrite H. auto.
  - unfold build_gwt_headers.
    rewrite (insert_insert_ne _ "x-gwt-module-base" "x-gwt-permutation")
      by discriminate.
    rewrite (insert_insert_ne _ "content-type" "x-gwt-permutation")
      by discriminate.
    rewrite (insert_insert_ne _ "content-type" "x-gwt-module-base")
      by discriminate.
    reflexivity.
Qed.

Lemma encoders_deterministic_witness :
  build_authenticate_body (get_gwt_config ∅ None None)
  = build_authenticate_body (get_gwt_config ∅ (Some "") (Some ""))
  /\ build_generate_token_body (get_gwt_config ∅ None None) "n" "1"
     = build_generate_token_body (get_gwt_config ∅ (Some "") (Some "")) "n" "1"
  /\ build_gwt_headers (get_gwt_config ∅ None None)
     = build_gwt_headers (get_gwt_config ∅ (Some "") (Some "")).
Proof.
  apply (encoders_deterministic (get_gwt_config ∅ None None)
           (get_gwt_config ∅ (Some "") (Some "")) "n" "n" "1" "1");
    reflexivity.
Defined.

(** ** The handshake *)

Lemma session_request_log (meth : Method) (u : string) (d : Payload)
    (h : gmap string string) (ss ss' : Session) (r : result Response) :
  session_request meth u d h ss = (r, ss') ->
  sent ss' = (sent ss ++ [mkRequest meth u d h (cookies ss)])%list.
Proof.
  unfold session_request. destruct (remote ss) as [|answer].
  - now intros [= <- <-].
  - destruct (answer _) as [rsp rem]. now intros [= <- <-].
Qed.

Lemma count_posts_get (log : list Request) (u : string) (d : Payload)
    (h jar : gmap string string) :
  count_posts (log ++ [mkRequest GET u d h jar])%list = count_posts log.
Proof.
  unfold count_posts. rewrite filter_app, length_app. simpl. lia.
Qed.

Lemma extract_csrf_token_run (ss : Session) :
  extract_csrf_token ss =
  match session_get LOGIN_PAGE_URL ss with
  | (Return response, s1) =>
      if status_is_error response
      then (Raise (HTTPError (status_code response)), s1)
      else
        match soup_find response "input" "anticsrf" with
        | None =>
            (Raise (CronometerAuthError
                      "Could not find CSRF token in login page"), s1)
        | Some csrf_input =>
            match attrs csrf_input !! "value" with
            | Some (AttrStr (String c v)) => (Return (String c v), s1)
            | _ =>
                (Raise (CronometerAuthError
                          "CSRF token value is missing or invalid"), s1)
            end
        end
  | (Raise e, s1) => (Raise e, s1)
  end.
Proof.
  unfold extract_csrf_token, bind, raise_for_status.
  destruct (session_get LOGIN_PAGE_URL ss) as [[response|e] s1];
    [|reflexivity].
  destruct (status_is_error response); [reflexivity|]. simpl.
  destruct (soup_find response "input" "anticsrf") as [tag|]; [|reflexivity].
  destruct (attrs tag !! "value") as [[[|c v]|l]|]; reflexivity.
Qed.

(** Step 1 issues the page GET and nothing else. *)
Lemma extract_csrf_token_log (ss s1 : Session) (r : result string) :
  extract_csrf_token ss = (r, s1) ->
  sent s1 = (sent ss ++ [login_page_request (cookies ss)])%list.
Proof.
  rewrite extract_csrf_token_run.
  destruct (session_get LOGIN_PAGE_URL ss) as [r0 s0] eqn:E.
  apply session_request_log in E. intros H.
  assert (s1 = s0) as ->; [|exact E].
  destruct r0 as [response|e]; [|congruence].
  destruct (status_is_error response); [congruence|].
  destruct (soup_find response "input" "anticsrf") as [tag|]; [|congruence].
  destruct (attrs tag !! "value") as [[[|c v]|l]|]; congruence.
Qed.

Lemma authenticate_gwt_run (config : GWTConfig) (ss : Session) :
  authenticate_gwt config ss =
  match session_post GWT_API_URL (Body (build_authenticate_body config))
          (build_gwt_headers config) ss with
  | (Return response, s') =>
      if status_is_error response
      then (Raise (HTTPError (status_code response)), s')
      else
        match parse_user_id (text response) with
        | Some (String c u) => (Return (String c u), s')
        | _ => (Raise (GWTVersionError (user_id_error (text response))), s')
        end
  | (Raise e, s') => (Raise e, s')
  end.
Proof.
  unfold authenticate_gwt, bind, raise_for_status.
  destruct (session_post _ _ _ ss) as [[response|e] s']; [|reflexivity].
  destruct (status_is_error response); [reflexivity|]. simpl.
  destruct (parse_user_id (text response)) as [[|c u]|]; reflexivity.
Qed.

Lemma generate_export_token_run (config : GWTConfig) (nonce user_id : string)
    (ss : Session) :
  generate_export_token config nonce user_id ss =
  match session_post GWT_API_URL
          (Body (build_generate_token_body config nonce user_id))
          (build_gwt_headers config) ss with
  | (Return response, s') =>
      if status_is_error response
      then (Raise (HTTPError (status_code response)), s')
      else
        match parse_auth_token (text response) with
        | Some (String c t) => (Return (String c t), s')
        | _ => (Raise (GWTVersionError (token_error (text response))), s')
        end
  | (Raise e, s') => (Raise e, s')
  end.
Proof.
  unfold generate_export_token, bind, raise_for_status.
  destruct (session_post _ _ _ ss) as [[response|e] s']; [|reflexivity].
  destruct (status_is_error response); [reflexivity|]. simpl.
  destruct (parse_auth_token (text response)) as [[|c u]|]; reflexivity.
Qed.

Section HandshakeProperties.

Variable py_str : json -> string.

Lemma perform_login_run (email password csrf_token : string) (ss : Session) :
  perform_login py_str email password csrf_token ss =
  match session_post LOGIN_API_URL
          (login_form email password csrf_token) form_headers ss with
  | (Return response, s') =>
      if status_is_error response
      then (Raise (HTTPError (status_code response)), s')
      else
        match json_body response with
        | None => (Raise JSONDecodeError, s')
        | Some (JObj m) =>
            if json_truthy (default JNull (m !! "success"))
            then (Return tt, s')
            else
              (Raise (CronometerAuthError
                        ("Login failed: "
                         ++ py_str (default (JStr "Unknown login error")
                                      (m !! "error")))), s')
        | Some _ => (Raise AttributeError, s')
        end
  | (Raise e, s') => (Raise e, s')
  end.
Proof.
  unfold perform_login, login_form, form_headers, bind, raise_for_status,
    response_json.
  destruct (session_post LOGIN_API_URL _ _ ss) as [[response|e] s'];
    [|reflexivity].
  destruct (status_is_error response); [reflexivity|]. simpl.
  destruct (json_body response) as [[| | | | |m]|]; try reflexivity.
  simpl. destruct (json_truthy (default JNull (m !! "success"))); reflexivity.
Qed.

(** [login], step by step. *)
Lemma login_run (email password : string) (self : CronometerClient) :
  login py_str email password self =
  let keep ss := mkClient ss (_gwt_config self) (_user_id self) (_nonce self) in
  match extract_csrf_token (_session self) with
  | (Raise e, s1) => (Raise e, keep s1)
  | (Return csrf_token, s1) =>
      match perform_login py_str email password csrf_token s1 with
      | (Raise e, s2) => (Raise e, keep s2)
      | (Return _, s2) =>
          match authenticate_gwt (_gwt_config self) s2 with
          | (Raise e, s3) => (Raise e, keep s3)
          | (Return user_id, s3) =>
              (Return tt,
               mkClient s3 (_gwt_config self) (Some user_id)
                 (cookies s3 !! "sesnonce"))
          end
      end
  end.
Proof.
  unfold login, bind, on_session, set_user_id, set_nonce, get_session_nonce.
  simpl.
  destruct (extract_csrf_token (_session self)) as [[csrf|e] s1];
    [|reflexivity]. simpl.
  destruct (perform_login py_str email password csrf s1) as [[[]|e] s2];
    [|reflexivity]. simpl.
  destruct (authenticate_gwt (_gwt_config self) s2) as [[u|e] s3];
    reflexivity.
Qed.

End HandshakeProperties.

(** Whatever makes step 1 fail, [login] fails with the same exception,
    having issued the page GET and no POST, and the stored identity is
    as before. *)
Lemma login_step1_failure (py_str : json -> string) (email password : string)
    (self : CronometerClient) (e : exn) (s1 : Session) :
  extract_csrf_token (_session self) = (Raise e, s1) ->
  login py_str email password self
  = (Raise e, mkClient s1 (_gwt_config self) (_user_id self) (_nonce self))
  /\ sent s1
     = (sent (_session self)
        ++ [login_page_request (cookies (_session self))])%list
  /\ count_posts (sent s1) = count_posts (sent (_session self)).
Proof.
  intros H. rewrite login_run, H. simpl.
  pose proof (extract_csrf_token_log _ _ _ H) as L.
  split; [reflexivity|]. split; [exact L|].
  rewrite L. apply count_posts_get.
Qed.

(** C7, as the code has it.  When the login page comes back with a status
    that passes [raise_for_status] and yields no usable CSRF field (no
    [input] named [anticsrf], or a missing or empty [value]), [login]
    fails with [CronometerAuthError]; the only request issued is the page
    GET, so the credentialed POST is never attempted, and the stored
    identity is as before.  Whatever makes step 1 fail, [login] fails
    without a POST. *)
Theorem login_without_csrf_field :
  forall (py_str : json -> string) (email password : string)
         (self : CronometerClient),
    (forall response s1,
       session_get LOGIN_PAGE_URL (_session self) = (Return response, s1) ->
       status_is_error response = false ->
       csrf_missing response = true ->
       exists msg self',
         login py_str email password self
         = (Raise (CronometerAuthError msg), self')
         /\ sent (_session self')
            = (sent (_session self)
               ++ [login_page_request (cookies (_session self))])%list
         /\ count_posts (sent (_session self'))
            = count_posts (sent (_session self))
         /\ _user_id self' = _user_id self /\ _nonce self' = _nonce self)
    /\ (forall e s1,
          extract_csrf_token (_session self) = (Raise e, s1) ->
          login py_str email password self
          = (Raise e,
             mkClient s1 (_gwt_config self) (_user_id self) (_nonce self))
          /\ count_posts (sent s1) = count_posts (sent (_session self))).
Proof.
  intros py_str email password self. split.
  - intros response s1 Hget Hst Hmiss.
    assert (exists msg,
               extract_csrf_token (_session self)
               = (Raise (CronometerAuthError msg), s1)) as [msg E].
    { rewrite extract_csrf_token_run, Hget, Hst.
      unfold csrf_missing in Hmiss.
      destruct (soup_find response "input" "anticsrf") as [tag|]; [|eauto].
      destruct (attrs tag !! "value") as [[[|c v]|l]|];
        try discriminate; eauto. }
    destruct (login_step1_failure py_str email password self _ _ E)
      as (L & Hlog & Hposts).
    exists msg, (mkClient s1 (_gwt_config self) (_user_id self) (_nonce self)).
    simpl. auto.
  - intros e s1 E.
    destruct (login_step1_failure py_str email password self _ _ E)
      as (L & _ & Hposts).
    auto.
Qed.

Lemma login_without_csrf_field_witness :
  (exists msg self',
     login str_of_json "user@example.com" "secret"
       (returning_client (scripted [login_page_without_field]))
     = (Raise (CronometerAuthError msg), self')
     /\ count_posts (sent (_session self')) = 0%nat
     /\ _user_id self' = Some "777" /\ _nonce self' = Some "oldnonce")
  /\ fst (login str_of_json "user@example.com" "secret"
            (returning_client Unreachable)) = Raise ConnectionError.
Proof.
  split.
  - destruct (login_without_csrf_field str_of_json "user@example.com"
                "secret"
                (returning_client (scripted [login_page_without_field])))
      as (A & _).
    destruct (A login_page_without_field
                (mkSession ∅ Unreachable [login_page_request ∅])
                eq_refl eq_refl eq_refl)
      as (msg & self' & E & _ & P & U & N).
    exists msg, self'. auto.
  - destruct (login_without_csrf_field str_of_json "user@example.com"
                "secret" (returning_client Unreachable)) as (_ & B).
    destruct (B ConnectionError
                (mkSession ∅ Unreachable [login_page_request ∅]) eq_refl)
      as (E & _).
    rewrite E. reflexivity.
Defined.

(** C7 as stated fails: a login page served with an error status yields no
    CSRF field either, and [login] then fails with the transport's
    [HTTPError], which is not a [CronometerAuthError]. *)
Lemma login_page_error_status :
  csrf_missing (server_error 503 "Service Unavailable") = true
  /\ fst (login str_of_json "user@example.com" "secret"
            (returning_client
               (scripted [server_error 503 "Service Unavailable"])))
     = Raise (HTTPError 503)
  /\ is_CronometerAuthError (HTTPError 503) = false.
Proof. split; [reflexivity | split; reflexivity]. Qed.

(** C3, as the code has it.  Once the login POST has been answered: a
    status from 400 to 599 makes [login] fail with the transport's
    [HTTPError] (not a [CronometerAuthError]); with any other status, a
    JSON object whose [success] entry is false, falsy or absent makes
    [login] fail with [CronometerAuthError] carrying the server's [error]
    entry, or the generic message when there is none.  In both cases the
    login POST is the last request issued and the stored identity is as
    before. *)
Theorem login_post_failures :
  forall (py_str : json -> string) (email password : string)
         (self : CronometerClient) (csrf_token : string) (s1 : Session)
         (response : Response) (s2 : Session),
    extract_csrf_token (_session self) = (Return csrf_token, s1) ->
    session_post LOGIN_API_URL (login_form email password csrf_token)
      form_headers s1
    = (Return response, s2) ->
    (status_is_error response = true ->
     login py_str email password self
     = (Raise (HTTPError (status_code response)),
        mkClient s2 (_gwt_config self) (_user_id self) (_nonce self)))
    /\ (status_is_error response = false ->
        forall m,
          json_body response = Some (JObj m) ->
          json_truthy (default JNull (m !! "success")) = false ->
          login py_str email password self
          = (Raise (CronometerAuthError
                      ("Login failed: "
                       ++ py_str (default (JStr "Unknown login error")
                                    (m !! "error")))),
             mkClient s2 (_gwt_config self) (_user_id self) (_nonce self)))
    /\ sent s2
       = (sent s1 ++ [login_post_request email password csrf_token
                        (cookies s1)])%list.
Proof.
  intros py_str email password self csrf s1 response s2 H1 H2.
  split; [|split].
  - intros Hst. rewrite login_run, H1. simpl.
    rewrite perform_login_run, H2, Hst. reflexivity.
  - intros Hst m Hj Hs. rewrite login_run, H1. simpl.
    rewrite perform_login_run, H2, Hst, Hj, Hs. reflexivity.
  - unfold session_post in H2. apply session_request_log in H2. exact H2.
Qed.

Lemma login_post_failures_witness :
  fst (login str_of_json "user@example.com" "wrong"
         (returning_client (scripted [login_page; login_unauthorized])))
  = Raise (HTTPError 401)
  /\ fst (login str_of_json "user@example.com" "wrong"
            (returning_client (scripted [login_page; login_refused])))
     = Raise (CronometerAuthError "Login failed: bad password").
Proof.
  split.
  - destruct (login_post_failures str_of_json "user@example.com" "wrong"
                (returning_client (scripted [login_page; login_unauthorized]))
                "tok123" _ login_unauthorized _ eq_refl eq_refl)
      as (A & _ & _).
    rewrite (A eq_refl). reflexivity.
  - destruct (login_post_failures str_of_json "user@example.com" "wrong"
                (returning_client (scripted [login_page; login_refused]))
                "tok123" _ login_refused _ eq_refl eq_refl)
      as (_ & B & _).
    rewrite (B eq_refl _ eq_refl eq_refl). reflexivity.
Defined.

(** C3 as stated fails: a 401 on the login POST makes [login] fail with
    [HTTPError], which is not a [CronometerAuthError]. *)
Lemma login_post_http_error :
  status_code login_unauthorized = 401%Z
  /\ fst (login str_of_json "user@example.com" "wrong"
            (returning_client (scripted [login_page; login_unauthorized])))
     = Raise (HTTPError 401)
  /\ is_CronometerAuthError (HTTPError 401) = false.
Proof. split; [reflexivity | split; reflexivity]. Qed.

(** C1, as the code has it.  Steps 1 and 2 having succeeded and the
    identity-exchange POST having been answered: with a status that
    passes [raise_for_status] and a text without the [OK[digits,]
    pattern, [login] fails with [GWTVersionError], its message ends with
    the first 200 characters of the response text, and [_user_id] and
    [_nonce] are exactly as before the call; with a status from 400 to
    599, [login] fails with [HTTPError], the stored identity again as
    before. *)
Theorem login_identity_exchange_failure :
  forall (py_str : json -> string) (email password : string)
         (self : CronometerClient) (csrf_token : string) (s1 s2 : Session)
         (response : Response) (s3 : Session),
    extract_csrf_token (_session self) = (Return csrf_token, s1) ->
    perform_login py_str email password csrf_token s1 = (Return tt, s2) ->
    session_post GWT_API_URL
      (Body (build_authenticate_body (_gwt_config self)))
      (build_gwt_headers (_gwt_config self)) s2
    = (Return response, s3) ->
    (status_is_error response = false ->
     ~ has_user_id_pattern (text response) ->
     exists self',
       login py_str email password self
       = (Raise (GWTVersionError (user_id_error (text response))), self')
       /\ user_id_error (text response)
          = "Could not parse user ID from GWT response. GWT values may be outdated. Response: "
            ++ py_prefix 200 (text response)
       /\ (exists rest, text response = py_prefix 200 (text response) ++ rest)
       /\ String.length (py_prefix 200 (text response))
          = Nat.min 200 (String.length (text response))
       /\ _user_id self' = _user_id self /\ _nonce self' = _nonce self)
    /\ (status_is_error response = true ->
        login py_str email password self
        = (Raise (HTTPError (status_code response)),
           mkClient s3 (_gwt_config self) (_user_id self) (_nonce self))).
Proof.
  intros py_str email password self csrf s1 s2 response s3 H1 H2 H3.
  split.
  - intros Hst Hno.
    exists (mkClient s3 (_gwt_config self) (_user_id self) (_nonce self)).
    split.
    + rewrite login_run, H1. simpl. rewrite H2. simpl.
      rewrite authenticate_gwt_run, H3, Hst.
      apply parse_user_id_none_iff in Hno. rewrite Hno. reflexivity.
    + split; [reflexivity|]. split; [apply py_prefix_is_prefix|].
      split; [|split; reflexivity].
      destruct (Nat.le_ge_cases 200 (String.length (text response))) as [L|L].
      * rewrite (py_prefix_long _ _ L). lia.
      * rewrite (py_prefix_short _ _ L). lia.
  - intros Hst. rewrite login_run, H1. simpl. rewrite H2. simpl.
    rewrite authenticate_gwt_run, H3, Hst. reflexivity.
Qed.

Lemma login_identity_exchange_failure_witness :
  exists self',
    login str_of_json "user@example.com" "secret"
      (returning_client
         (scripted [login_page; login_accepted; rpc_reply "//EX[2,1,0]"]))
    = (Raise (GWTVersionError (user_id_error "//EX[2,1,0]")), self')
    /\ _user_id self' = Some "777" /\ _nonce self' = Some "oldnonce".
Proof.
  assert (N : ~ has_user_id_pattern (text (rpc_reply "//EX[2,1,0]")))
    by (apply parse_user_id_none_iff; reflexivity).
  destruct (login_identity_exchange_failure str_of_json
              "user@example.com" "secret"
              (returning_client
                 (scripted [login_page; login_accepted;
                            rpc_reply "//EX[2,1,0]"]))
              "tok123" _ _ (rpc_reply "//EX[2,1,0]") _
              eq_refl eq_refl eq_refl) as (A & _).
  destruct (A eq_refl N) as (self' & E & _ & _ & _ & U & V).
  exists self'. auto.
Defined.

(** C1 as stated fails: an identity-exchange response with an error status
    and a text without the pattern makes [login] fail with [HTTPError],
    not with [GWTVersionError]. *)
Lemma login_identity_exchange_http_error :
  parse_user_id (text (server_error 500 "Internal Server Error")) = None
  /\ fst (login str_of_json "user@example.com" "secret"
            (returning_client
               (scripted [login_page; login_accepted;
                          server_error 500 "Internal Server Error"])))
     = Raise (HTTPError 500)
  /\ is_GWTVersionError (HTTPError 500) = false.
Proof. split; [reflexivity | split; reflexivity]. Qed.

(** ** Token minting *)

(** C5.  On a client whose [_user_id] or [_nonce] is unset (or empty), as
    before any successful login, [_get_export_token] fails with
    [CronometerAuthError] telling the caller to log in first, and the
    client, its session and the log of requests are untouched: no RPC call
    is made. *)
Theorem export_token_requires_login :
  forall (self : CronometerClient),
    truthy (_user_id self) = false \/ truthy (_nonce self) = false ->
    _get_export_token self
    = (Raise (CronometerAuthError "Not authenticated. Call login() first."),
       self)
    /\ sent (_session (snd (_get_export_token self))) = sent (_session self).
Proof.
  intros self H.
  assert (E : _get_export_token self
              = (Raise (CronometerAuthError
                          "Not authenticated. Call login() first."), self)).
  { unfold _get_export_token, _ensure_authenticated, bind, raise.
    destruct H as [-> | ->]; simpl; [reflexivity|].
    rewrite orb_true_r. reflexivity. }
  rewrite E. split; reflexivity.
Qed.

Lemma export_token_requires_login_witness :
  _get_export_token (new_client ∅ (scripted [rpc_reply "unused"]) None None)
  = (Raise (CronometerAuthError "Not authenticated. Call login() first."),
     new_client ∅ (scripted [rpc_reply "unused"]) None None)
  /\ sent (_session (snd (_get_export_token
                            (new_client ∅ (scripted [rpc_reply "unused"])
                               None None)))) = [].
Proof.
  apply (export_token_requires_login
           (new_client ∅ (scripted [rpc_reply "unused"]) None None)).
  left. reflexivity.
Defined.

(** C10, as the code has it.  When the token-minting POST is answered with
    a status that passes [raise_for_status], [generate_export_token]
    raises [GWTVersionError], with the first 200 characters of the text
    in its message, whenever the decoder's result is the empty string or
    nothing; so it never returns an empty token.  The decoder's result is
    the empty string for a text whose first quoted string is empty and is
    followed by no further double quote on its line, such as [//OK[]
    with an empty quoted string inside the brackets. *)
Theorem generate_export_token_rejects_empty :
  forall (config : GWTConfig) (nonce user_id : string) (ss : Session),
    (forall response ss',
       session_post GWT_API_URL
         (Body (build_generate_token_body config nonce user_id))
         (build_gwt_headers config) ss
       = (Return response, ss') ->
       status_is_error response = false ->
       (parse_auth_token (text response) = Some ""
        \/ parse_auth_token (text response) = None
        \/ exists pre post,
             text response = pre ++ quoted "" ++ post
             /\ has_char dquote pre = false /\ quote_free_line post = true) ->
       generate_export_token config nonce user_id ss
       = (Raise (GWTVersionError (token_error (text response))), ss')
       /\ token_error (text response)
          = "Could not parse auth token from GWT response. GWT values may be outdated. Response: "
            ++ py_prefix 200 (text response))
    /\ (forall token ss',
          generate_export_token config nonce user_id ss = (Return token, ss') ->
          token <> "")
    /\ parse_auth_token ("//OK[" ++ quoted "" ++ "]") = Some "".
Proof.
  intros config nonce user_id ss. split; [|split; [|reflexivity]].
  - intros response ss' Hp Hst H. split; [|reflexivity].
    rewrite generate_export_token_run, Hp, Hst.
    assert (E : parse_auth_token (text response) = Some ""
                \/ parse_auth_token (text response) = None).
    { destruct H as [H | [H | (pre & post & -> & H1 & H2)]]; auto.
      left. now apply parse_auth_token_empty. }
    destruct E as [-> | ->]; reflexivity.
  - intros token ss'. rewrite generate_export_token_run.
    destruct (session_post _ _ _ ss) as [[response|e] s0]; [|discriminate].
    destruct (status_is_error response); [discriminate|].
    destruct (parse_auth_token (text response)) as [[|c t]|];
      try discriminate.
    intros [= <- _]. discriminate.
Qed.

Lemma generate_export_token_rejects_empty_witness :
  generate_export_token (get_gwt_config ∅ None None) "nonce456" "12345"
    (mkSession ∅ (scripted [rpc_reply ("//OK[" ++ quoted "" ++ "]")]) [])
  = (Raise (GWTVersionError
              (token_error ("//OK[" ++ quoted "" ++ "]"))),
     mkSession ∅ Unreachable
       [generate_token_request (get_gwt_config ∅ None None)
          "nonce456" "12345" ∅])
  /\ fst (generate_export_token (get_gwt_config ∅ None None)
            "nonce456" "12345"
            (mkSession ∅
               (scripted [rpc_reply ("//OK[" ++ quoted "abc123def456" ++ "]")])
               []))
     = Return "abc123def456"
  /\ "abc123def456" <> "".
Proof.
  destruct (generate_export_token_rejects_empty
              (get_gwt_config ∅ None None) "nonce456" "12345"
              (mkSession ∅
                 (scripted [rpc_reply ("//OK[" ++ quoted "" ++ "]")]) []))
    as (A & _ & _).
  destruct (generate_export_token_rejects_empty
              (get_gwt_config ∅ None None) "nonce456" "12345"
              (mkSession ∅
                 (scripted [rpc_reply ("//OK[" ++ quoted "abc123def456" ++ "]")])
                 []))
    as (_ & B & _).
  split; [|split; [reflexivity|]].
  - apply (A (rpc_reply ("//OK[" ++ quoted "" ++ "]")) _ eq_refl eq_refl).
    left. reflexivity.
  - apply (B "abc123def456" _ eq_refl).
Defined.

(** C10 as stated fails: when the first quoted string is empty but another
    double quote follows on the line, the decoder's greedy group is not
    empty and [generate_export_token] returns it as the token. *)
Lemma generate_export_token_first_quoted_empty :
  first_quoted ("//OK[" ++ quoted "" ++ "," ++ quoted "abc" ++ "]") = Some ""
  /\ fst (generate_export_token (get_gwt_config ∅ None None)
            "nonce456" "12345"
            (mkSession ∅
               (scripted
                  [rpc_reply ("//OK[" ++ quoted "" ++ "," ++ quoted "abc" ++ "]")])
               []))
     = Return (q ("," ++ q "abc")).
Proof. split; reflexivity. Qed.

(** * Further properties of the handshake *)

Lemma session_request_run (meth : Method) (u : string) (d : Payload)
    (h : gmap string string) (ss ss' : Session) (response : Response) :
  session_request meth u d h ss = (Return response, ss') ->
  cookies ss' = store_cookies (set_cookies response) (cookies ss)
  /\ sent ss' = (sent ss ++ [mkRequest meth u d h (cookies ss)])%list.
Proof.
  unfold session_request. destruct (remote ss) as [|answer]; [discriminate|].
  destruct (answer _) as [rsp rem]. now intros [= <- <-].
Qed.

Lemma perform_login_log (py_str : json -> string)
    (email password csrf_token : string) (s1 s2 : Session) (r : result unit) :
  perform_login py_str email password csrf_token s1 = (r, s2) ->
  sent s2
  = (sent s1 ++ [login_post_request email password csrf_token (cookies s1)])%list.
Proof.
  rewrite perform_login_run.
  destruct (session_post LOGIN_API_URL _ _ s1) as [r0 s0] eqn:E.
  apply session_request_log in E. intros H.
  assert (s2 = s0) as ->; [|exact E].
  destruct r0 as [response|e]; [|congruence].
  destruct (status_is_error response); [congruence|].
  destruct (json_body response) as [[| | | | |m]|]; try congruence.
  destruct (json_truthy _); congruence.
Qed.

Lemma authenticate_gwt_log (config : GWTConfig) (s2 s3 : Session)
    (r : result string) :
  authenticate_gwt config s2 = (r, s3) ->
  sent s3 = (sent s2 ++ [authenticate_request config (cookies s2)])%list.
Proof.
  rewrite authenticate_gwt_run.
  destruct (session_post GWT_API_URL _ _ s2) as [r0 s0] eqn:E.
  apply session_request_log in E. intros H.
  assert (s3 = s0) as ->; [|exact E].
  destruct r0 as [response|e]; [|congruence].
  destruct (status_is_error response); [congruence|].
  destruct (parse_user_id (text response)) as [[|c u]|]; congruence.
Qed.



Lemma ensure_authenticated_fails (self : CronometerClient) :
  truthy (_user_id self) = false \/ truthy (_nonce self) = false ->
  _get_export_token self
  = (Raise (CronometerAuthError "Not authenticated. Call login() first."),
     self).
Proof.
  intros H. unfold _get_export_token, _ensure_authenticated, bind, raise.
  destruct H as [-> | ->]; simpl; [reflexivity|].
  rewrite orb_true_r. reflexivity.
Qed.







(** X4.  The CSRF value posted with the credentials is exactly the [value]
    of the page's [anticsrf] field, and the login POST goes out with the
    jar as the page response left it: the cookies the page set are sent
    back. *)
Theorem login_post_carries_csrf :
  forall (py_str : json -> string) (email password : string)
         (self : CronometerClient) (page : Response) (s1 : Session)
         (csrf_input : Tag) (v : string),
    session_get LOGIN_PAGE_URL (_session self) = (Return page, s1) ->
    status_is_error page = false ->
    soup_find page "input" "anticsrf" = Some csrf_input ->
    attrs csrf_input !! "value" = Some (AttrStr v) ->
    v <> "" ->
    exists rest,
      sent (_session (snd (login py_str email password self)))
      = (sent (_session self)
         ++ [login_page_request (cookies (_session self));
             login_post_request email password v
               (store_cookies (set_cookies page) (cookies (_session self)))]
         ++ rest)%list.
Proof.
  intros py_str email password self page s1 tag v Hget Hst Hfind Hval Hv.
  assert (E1 : extract_csrf_token (_session self) = (Return v, s1)).
  { rewrite extract_csrf_token_run, Hget, Hst, Hfind, Hval.
    destruct v; [congruence | reflexivity]. }
  destruct (session_request_run _ _ _ _ _ _ _ Hget) as [Hjar _].
  pose proof (extract_csrf_token_log _ _ _ E1) as L1.
  rewrite login_run, E1. cbv zeta.
  destruct (perform_login py_str email password v s1) as [[[]|e2] s2] eqn:E2;
    apply perform_login_log in E2; rewrite Hjar in E2.
  - destruct (authenticate_gwt (_gwt_config self) s2) as [[u|e3] s3] eqn:E3;
      apply authenticate_gwt_log in E3; simpl;
      exists [authenticate_request (_gwt_config self) (cookies s2)];
      rewrite E3, E2, L1, <- !app_assoc; reflexivity.
  - simpl. exists []. rewrite E2, L1, <- !app_assoc. reflexivity.
Qed.

Lemma login_post_carries_csrf_witness :
  exists rest,
    sent (_session
            (snd (login str_of_json "user@example.com" "wrong"
                    (returning_client (scripted [login_page; login_refused])))))
    = ([] ++ [login_page_request ∅;
              login_post_request "user@example.com" "wrong" "tok123"
                (store_cookies (set_cookies login_page) ∅)]
          ++ rest)%list.
Proof.
  apply (login_post_carries_csrf str_of_json "user@example.com" "wrong"
           (returning_client (scripted [login_page; login_refused]))
           login_page _
           (mkTag "input"
              (<["type" := AttrStr "hidden"]>
               (<["name" := AttrStr "anticsrf"]>
                (<["value" := AttrStr "tok123"]> ∅))))
           "tok123" eq_refl eq_refl eq_refl eq_refl).
  discriminate.
Defined.



(** * Exports and retrieval *)


Lemma get_export_token_run (self : CronometerClient) :
  truthy (_user_id self) = true -> truthy (_nonce self) = true ->
  exists user_id nonce,
    _user_id self = Some user_id /\ _nonce self = Some nonce
    /\ _get_export_token self
       = (let (r, ss) :=
            generate_export_token (_gwt_config self) nonce user_id
              (_session self) in
          (r, mkClient ss (_gwt_config self) (_user_id self) (_nonce self))).
Proof.
  intros Hu Hn.
  destruct (_user_id self) as [[|c u]|] eqn:Eu; try discriminate.
  destruct (_nonce self) as [[|d n]|] eqn:En; try discriminate.
  exists (String c u), (String d n). split; [reflexivity|].
  split; [reflexivity|].
  unfold _get_export_token, _ensure_authenticated, bind, on_session, ret.
  rewrite Eu, En. simpl.
  destruct (generate_export_token _ _ _ _). now rewrite Eu, En.
Qed.

Section ExportProperties.

Variable date : Type.
Variable strftime : date -> string -> string.
Variable urlencode : list (string * string) -> string.

Lemma fetch_export_run (token generate_type : string) (start end_ : date)
    (ss : Session) :
  _fetch_export date strftime urlencode token generate_type start end_ ss =
  match session_get_params urlencode EXPORT_URL
          (export_params date strftime token generate_type start end_)
          export_headers ss with
  | (Return response, s') =>
      if (status_code response =? 200)%Z
      then (Return (text response), s')
      else (Raise (ExportError (export_error response)), s')
  | (Raise e, s') => (Raise e, s')
  end.
Proof.
  unfold _fetch_export, bind.
  destruct (session_get_params _ _ _ _ ss) as [[response|e] s'];
    [|reflexivity].
  destruct (status_code response =? 200)%Z; reflexivity.
Qed.

Lemma fetch_export_log (token generate_type : string) (start end_ : date)
    (ss ss' : Session) (r : result string) :
  _fetch_export date strftime urlencode token generate_type start end_ ss
  = (r, ss') ->
  sent ss'
  = (sent ss ++ [export_request date strftime urlencode token generate_type
                   start end_ (cookies ss)])%list.
Proof.
  rewrite fetch_export_run.
  destruct (session_get_params _ _ _ _ ss) as [r0 s0] eqn:E.
  apply session_request_log in E. intros H.
  assert (ss' = s0) as ->; [|exact E].
  destruct r0 as [response|e]; [|congruence].
  destruct (status_code response =? 200)%Z; congruence.
Qed.

Lemma raw_method_shape (g : string)
    (f : date -> date -> M CronometerClient string) :
  In (g, f) (raw_methods date strftime urlencode) ->
  f = fun start end_ =>
        bind _get_export_token
          (fun token =>
             on_session
               (_fetch_export date strftime urlencode token g start end_)).
Proof.
  simpl. intros [H|[H|[H|[H|[H|[]]]]]]; injection H as <- <-; reflexivity.
Qed.

End ExportProperties.



(** X7.  Each of the five raw retrieval methods, called on a client whose
    user id or nonce is unset or empty, fails with the not-authenticated
    error and leaves the client as it was: neither the token RPC nor the
    export request is issued. *)
Theorem raw_methods_require_login :
  forall (date : Type) (strftime : date -> string -> string)
         (urlencode : list (string * string) -> string)
         (g : string) (f : date -> date -> M CronometerClient string)
         (start end_ : date) (self : CronometerClient),
    In (g, f) (raw_methods date strftime urlencode) ->
    truthy (_user_id self) = false \/ truthy (_nonce self) = false ->
    f start end_ self
    = (Raise (CronometerAuthError "Not authenticated. Call login() first."),
       self).
Proof.
  intros date strftime urlencode g f start end_ self Hin H.
  rewrite (raw_method_shape _ _ _ _ _ Hin). unfold bind.
  now rewrite (ensure_authenticated_fails self H).
Qed.

Lemma raw_methods_require_login_witness :
  get_notes_raw string iso_strftime plain_urlencode "2024-01-01" "2024-01-31"
    (new_client ∅ (scripted [rpc_reply "unused"]) None None)
  = (Raise (CronometerAuthError "Not authenticated. Call login() first."),
     new_client ∅ (scripted [rpc_reply "unused"]) None None).
Proof.
  apply (raw_methods_require_login string iso_strftime plain_urlencode
           "notes").
  - simpl. auto.
  - left. reflexivity.
Defined.

Lemma raw_method_identity :
  forall (date : Type) (strftime : date -> string -> string)
         (urlencode : list (string * string) -> string)
         (g : string) (f : date -> date -> M CronometerClient string)
         (start end_ : date) (self self' : CronometerClient)
         (r : result string),
    In (g, f) (raw_methods date strftime urlencode) ->
    f start end_ self = (r, self') ->
    _user_id self' = _user_id self /\ _nonce self' = _nonce self
    /\ _gwt_config self' = _gwt_config self.
Proof.
  intros date strftime urlencode g f start end_ self self' r Hin.
  rewrite (raw_method_shape _ _ _ _ _ Hin). unfold bind.
  destruct (truthy (_user_id self)) eqn:Hu;
    [destruct (truthy (_nonce self)) eqn:Hn|].
  - destruct (get_export_token_run self Hu Hn) as (u & n & _ & _ & ->).
    destruct (generate_export_token _ _ _ _) as [[tok|e] s1].
    + unfold on_session. simpl.
      destruct (_fetch_export _ _ _ _ _ _ _ s1). intros [= _ <-]. auto.
    + intros [= _ <-]. auto.
  - rewrite (ensure_authenticated_fails self (or_intror Hn)).
    intros [= _ <-]. auto.
  - rewrite (ensure_authenticated_fails self (or_introl Hu)).
    intros [= _ <-]. auto.
Qed.

(** X8.  No retrieval method ever changes the stored identity or the
    configuration, whatever its outcome. *)
Theorem raw_methods_keep_identity :
  forall (date : Type) (strftime : date -> string -> string)
         (urlencode : list (string * string) -> string)
         (g : string) (f : date -> date -> M CronometerClient string)
         (start end_ : date) (self self' : CronometerClient)
         (r : result string),
    In (g, f) (raw_methods date strftime urlencode) ->
    f start end_ self = (r, self') ->
    _user_id self' = _user_id self /\ _nonce self' = _nonce self
    /\ _gwt_config self' = _gwt_config self.
Proof. exact raw_method_identity. Qed.

Lemma raw_methods_keep_identity_witness :
  _user_id (snd (get_servings_raw string iso_strftime plain_urlencode
                   "2024-01-01" "2024-01-31"
                   (returning_client
                      (scripted [rpc_reply ("//OK[" ++ quoted "abc" ++ "]");
                                 server_error 500 "boom"]))))
  = Some "777".
Proof.
  edestruct (raw_methods_keep_identity string iso_strftime plain_urlencode
               "servings"
               (get_servings_raw string iso_strftime plain_urlencode)
               "2024-01-01" "2024-01-31"
               (returning_client
                  (scripted [rpc_reply ("//OK[" ++ quoted "abc" ++ "]");
                             server_error 500 "boom"])))
    as (U & _); [simpl; auto | apply surjective_pairing | exact U].
Defined.




(** X10.  The token a retrieval passes to the export endpoint, as the
    [nonce] parameter of the query, is exactly the text decoded from the
    token RPC's response; the export GET goes out with the jar as that
    response left it, and to the method's own [generate] value. *)
Theorem raw_method_token_flow :
  forall (date : Type) (strftime : date -> string -> string)
         (urlencode : list (string * string) -> string)
         (g : string) (f : date -> date -> M CronometerClient string)
         (start end_ : date) (self : CronometerClient)
         (user_id nonce token : string) (response : Response) (s1 : Session),
    In (g, f) (raw_methods date strftime urlencode) ->
    _user_id self = Some user_id -> user_id <> "" ->
    _nonce self = Some nonce -> nonce <> "" ->
    session_post GWT_API_URL
      (Body (build_generate_token_body (_gwt_config self) nonce user_id))
      (build_gwt_headers (_gwt_config self)) (_session self)
    = (Return response, s1) ->
    status_is_error response = false ->
    parse_auth_token (text response) = Some token -> token <> "" ->
    sent (_session (snd (f start end_ self)))
    = (sent (_session self)
       ++ [generate_token_request (_gwt_config self) nonce user_id
             (cookies (_session self));
           mkRequest GET
             (EXPORT_URL ++ "?"
              ++ urlencode [("nonce", token); ("generate", g);
                            ("start", strftime start "%Y-%m-%d");
                            ("end", strftime end_ "%Y-%m-%d")])
             NoData export_headers
             (store_cookies (set_cookies response)
                (cookies (_session self)))])%list.
Proof.
  intros date strftime urlencode g f start end_ self u n tok response s1
    Hin Eu Hu En Hn Hp Hst Ht Htok.
  rewrite (raw_method_shape _ _ _ _ _ Hin). unfold bind.
  assert (Tu : truthy (_user_id self) = true)
    by (rewrite Eu; destruct u; [congruence | reflexivity]).
  assert (Tn : truthy (_nonce self) = true)
    by (rewrite En; destruct n; [congruence | reflexivity]).
  destruct (get_export_token_run self Tu Tn) as (u' & n' & Eu' & En' & ->).
  assert (u' = u) as -> by congruence. assert (n' = n) as -> by congruence.
  assert (G : generate_export_token (_gwt_config self) n u (_session self)
              = (Return tok, s1)).
  { rewrite generate_export_token_run, Hp, Hst, Ht.
    destruct tok; [congruence | reflexivity]. }
  rewrite G. unfold on_session. simpl.
  destruct (_fetch_export _ _ _ _ _ _ _ s1) as [r1 s2] eqn:F.
  apply fetch_export_log in F. simpl.
  destruct (session_request_run _ _ _ _ _ _ _ Hp) as [Hjar Hlog].
  rewrite F, Hlog, Hjar, <- !app_assoc. reflexivity.
Qed.

Lemma raw_method_token_flow_witness :
  map url
    (sent (_session
             (snd (get_daily_nutrition_raw string iso_strftime plain_urlencode
                     "2024-01-01" "2024-01-31"
                     (returning_client
                        (scripted
                           [rpc_reply ("//OK[" ++ quoted "abc123" ++ "]");
                            rpc_reply "Day,Energy (kcal)"]))))))
  = [GWT_API_URL;
     "https://cronometer.com/export?nonce=abc123&generate=dailySummary&start=2024-01-01&end=2024-01-31"].
Proof.
  rewrite (raw_method_token_flow string iso_strftime plain_urlencode
             "dailySummary"
             (get_daily_nutrition_raw string iso_strftime plain_urlencode)
             "2024-01-01" "2024-01-31"
             (returning_client
                (scripted [rpc_reply ("//OK[" ++ quoted "abc123" ++ "]");
                           rpc_reply "Day,Energy (kcal)"]))
             "777" "oldnonce" "abc123"
             (rpc_reply ("//OK[" ++ quoted "abc123" ++ "]"))
             (mkSession ∅ (scripted [rpc_reply "Day,Energy (kcal)"])
                [generate_token_request (get_gwt_config ∅ None None)
                   "oldnonce" "777" ∅])).
  - reflexivity.
  - simpl. auto.
  - reflexivity.
  - discriminate.
  - reflexivity.
  - discriminate.
  - reflexivity.
  - reflexivity.
  - reflexivity.
  - discriminate.
Defined.



(** * Further properties of the codec *)

Lemma str_app_inv_head (p a b : string) : p ++ a = p ++ b -> a = b.
Proof. induction p as [|c p IH]; simpl; [auto | intros [= H]; auto]. Qed.

Lemma generate_body_fields (config : GWTConfig) (nonce user_id : string) :
  has_char "|" (header config) = false ->
  has_char "|" nonce = false -> has_char "|" user_id = false ->
  split_on "|" (build_generate_token_body config nonce user_id)
  = ["7"; "0"; "8";
     DEFAULT_GWT_MODULE_BASE; header config;
     "com.cronometer.shared.rpc.CronometerService";
     "generateAuthorizationToken";
     "java.lang.String/2004016611"; "I";
     "com.cronometer.shared.user.AuthScope/2065601159"; nonce;
     "1"; "2"; "3"; "4"; "4"; "5"; "6"; "6"; "7"; "8";
     user_id; "3600"; "7"; "2"; ""].
Proof.
  intros Hh Hn Hu. unfold build_generate_token_body. simpl.
  rewrite (split_on_field _ _ _ Hh). simpl.
  rewrite (split_on_field _ _ _ Hn). simpl.
  rewrite (split_on_field _ _ _ Hu). reflexivity.
Qed.

Lemma logout_body_fields (config : GWTConfig) (nonce : string) :
  has_char "|" (header config) = false -> has_char "|" nonce = false ->
  split_on "|" (build_logout_body config nonce)
  = ["7"; "0"; "6";
     DEFAULT_GWT_MODULE_BASE; header config;
     "com.cronometer.shared.rpc.CronometerService"; "logout";
     "java.lang.String/2004016611"; nonce;
     "1"; "2"; "3"; "4"; "1"; "5"; "6"; ""].
Proof.
  intros Hh Hn. unfold build_logout_body. simpl.
  rewrite (split_on_field _ _ _ Hh). simpl.
  rewrite (split_on_field _ _ _ Hn). reflexivity.
Qed.

(** X12.  The request bodies can be told apart and read back.  The three
    bodies (authenticate, generateAuthorizationToken, logout) are never
    equal to one another, whatever the configurations, nonces and user
    ids.  When the header, the nonce and the user id hold no pipe, equal
    token bodies have equal header, nonce and user id, and equal logout
    bodies equal header and nonce.  With a pipe inside the values two
    different (nonce, user id) pairs can give the same token body. *)
Theorem request_bodies_unambiguous :
  forall (c1 c2 : GWTConfig) (n1 n2 u1 u2 : string),
    build_authenticate_body c1 <> build_generate_token_body c2 n2 u2
    /\ build_authenticate_body c1 <> build_logout_body c2 n2
    /\ build_generate_token_body c1 n1 u1 <> build_logout_body c2 n2
    /\ (has_char "|" (header c1) = false -> has_char "|" (header c2) = false ->
        has_char "|" n1 = false -> has_char "|" n2 = false ->
        has_char "|" u1 = false -> has_char "|" u2 = false ->
        build_generate_token_body c1 n1 u1 = build_generate_token_body c2 n2 u2 ->
        header c1 = header c2 /\ n1 = n2 /\ u1 = u2)
    /\ (has_char "|" (header c1) = false -> has_char "|" (header c2) = false ->
        has_char "|" n1 = false -> has_char "|" n2 = false ->
        build_logout_body c1 n1 = build_logout_body c2 n2 ->
        header c1 = header c2 /\ n1 = n2)
    /\ build_generate_token_body c1 "n" "u|1|2|3|4|4|5|6|6|7|8|v"
       = build_generate_token_body c1 "n|1|2|3|4|4|5|6|6|7|8|u" "v".
Proof.
  intros c1 c2 n1 n2 u1 u2.
  split; [unfold build_authenticate_body, build_generate_token_body;
          simpl; discriminate|].
  split; [unfold build_authenticate_body, build_logout_body;
          simpl; discriminate|].
  split; [unfold build_generate_token_body, build_logout_body;
          simpl; discriminate|].
  split; [|split].
  - intros H1 H2 H3 H4 H5 H6 E.
    apply (f_equal (split_on "|")) in E.
    rewrite (generate_body_fields c1 n1 u1 H1 H3 H5) in E.
    rewrite (generate_body_fields c2 n2 u2 H2 H4 H6) in E.
    injection E as Eh En Eu. auto.
  - intros H1 H2 H3 H4 E.
    apply (f_equal (split_on "|")) in E.
    rewrite (logout_body_fields c1 n1 H1 H3) in E.
    rewrite (logout_body_fields c2 n2 H2 H4) in E.
    injection E as Eh En. auto.
  - unfold build_generate_token_body. simpl.
    apply str_app_inv_head with (p := ""). simpl.
    repeat f_equal.
Qed.

Lemma request_bodies_unambiguous_witness :
  header (get_gwt_config ∅ None (Some "A")) = header (get_gwt_config ∅ None (Some "A"))
  /\ "n1" = "n1" /\ "42" = "42".
Proof.
  destruct (request_bodies_unambiguous
              (get_gwt_config ∅ None (Some "A"))
              (get_gwt_config ∅ None (Some "A")) "n1" "n1" "42" "42")
    as (_ & _ & _ & I & _).
  apply I; reflexivity.
Defined.

(** X13.  For a resolved configuration the header map holds exactly three
    entries: the content type and the module base are the built-in
    constants whatever the arguments and the environment, and the
    permutation follows the resolution; any other key is absent.  The
    header hash never reaches the header map and the permutation never
    reaches a request body: changing one leaves the other's output
    unchanged. *)
Theorem headers_of_resolved_config :
  forall (environ : gmap string string) (perm hdr : option string)
         (k : string),
    build_gwt_headers (get_gwt_config environ perm hdr) !! k
    = (if decide (k = "content-type")
       then Some "text/x-gwt-rpc; charset=UTF-8"
       else if decide (k = "x-gwt-module-base")
       then Some "https://cronometer.com/cronometer/"
       else if decide (k = "x-gwt-permutation")
       then Some (permutation (get_gwt_config environ perm hdr))
       else None)
    /\ size (build_gwt_headers (get_gwt_config environ perm hdr)) = 3%nat
    /\ (forall hdr',
          build_gwt_headers (get_gwt_config environ perm hdr)
          = build_gwt_headers (get_gwt_config environ perm hdr'))
    /\ (forall perm' nonce user_id,
          build_authenticate_body (get_gwt_config environ perm hdr)
          = build_authenticate_body (get_gwt_config environ perm' hdr)
          /\ build_generate_token_body (get_gwt_config environ perm hdr)
               nonce user_id
             = build_generate_token_body (get_gwt_config environ perm' hdr)
                 nonce user_id).
Proof.
  intros environ perm hdr k. split; [|split; [|split]].
  - unfold build_gwt_headers. simpl.
    rewrite !lookup_insert, lookup_empty.
    repeat case_decide; subst; try congruence; reflexivity.
  - unfold build_gwt_headers.
    rewrite !map_size_insert_None, map_size_empty; [reflexivity|..].
    + apply lookup_empty.
    + rewrite lookup_insert_ne by discriminate. apply lookup_empty.
    + rewrite !lookup_insert_ne by discriminate. apply lookup_empty.
  - reflexivity.
  - intros perm' nonce user_id. split; reflexivity.
Qed.

Lemma qfl_app (a b : string) :
  quote_free_line a = true -> quote_free_line b = true ->
  quote_free_line (a ++ b) = true.
Proof.
  intros Ha Hb. induction a as [|c a IH]; simpl in *; [exact Hb|].
  destruct (Ascii.eqb c newline); [reflexivity|].
  destruct (Ascii.eqb c dquote); [discriminate | auto].
Qed.

Lemma match_uid_extend (s t : string) (g g' m : Re.span) :
  Re.match_here USER_ID_PATTERN s g = Some m ->
  exists m', Re.match_here USER_ID_PATTERN (s ++ t) g' = Some m'
             /\ Re.group1 m' = Re.group1 m.
Proof.
  intros H. apply match_uid_sound in H as (d & rest & -> & Hd & Hall & ->).
  exists (d ++ "," ++ rest ++ t, "," ++ rest ++ t). split.
  - replace (("OK[" ++ d ++ "," ++ rest) ++ t)
      with ("OK[" ++ d ++ "," ++ rest ++ t)
      by (simpl; now rewrite !str_app_assoc).
    now apply match_uid_complete.
  - change ("," ++ rest ++ t) with (String "," (rest ++ t)).
    change ("," ++ rest) with (String "," rest).
    change (d ++ String "," (rest ++ t)) with (d ++ "," ++ (rest ++ t)).
    change (d ++ String "," rest) with (d ++ "," ++ rest).
    now rewrite !group1_app.
Qed.

Lemma search_uid_extend (s t : string) (m : Re.span) :
  Re.search USER_ID_PATTERN s = Some m ->
  exists m', Re.search USER_ID_PATTERN (s ++ t) = Some m'
             /\ Re.group1 m' = Re.group1 m.
Proof.
  induction s as [|c s IH]; [discriminate|].
  cbn [Re.search].
  destruct (Re.match_here USER_ID_PATTERN (String c s) (String c s, String c s))
    as [m0|] eqn:E.
  - intros [= <-].
    destruct (match_uid_extend _ t _ (String c s ++ t, String c s ++ t) _ E)
      as (m' & E' & G).
    exists m'. split; [|exact G]. now apply search_here.
  - intros H. destruct (IH H) as (m' & E' & G). exists m'. split; [|exact G].
    change (String c s ++ t) with (String c (s ++ t)). cbn [Re.search].
    assert (N : Re.match_here USER_ID_PATTERN (String c (s ++ t))
                  (String c (s ++ t), String c (s ++ t)) = None);
      [|now rewrite N].
    apply search_found in H as (pre & suf & -> & Hm).
    apply match_uid_sound in Hm as (d & rest & -> & _ & _ & _).
    replace (String c ((pre ++ "OK[" ++ d ++ "," ++ rest) ++ t))
      with (String c pre ++ String "O" ("K[" ++ d ++ "," ++ rest ++ t))
      by (simpl; rewrite !str_app_assoc; simpl;
          now rewrite !str_app_assoc).
    apply match_uid_boundary with (g := (String c pre, String c pre));
      [discriminate|].
    destruct (Re.match_here USER_ID_PATTERN (String c pre)
                (String c pre, String c pre)) as [m1|] eqn:E1;
      [|reflexivity].
    destruct (match_uid_extend _ ("OK[" ++ d ++ "," ++ rest)
                _ (String c (pre ++ "OK[" ++ d ++ "," ++ rest),
                   String c (pre ++ "OK[" ++ d ++ "," ++ rest)) _ E1)
      as (m2 & E2 & _).
    change (String c pre ++ "OK[" ++ d ++ "," ++ rest)
      with (String c (pre ++ "OK[" ++ d ++ "," ++ rest)) in E2.
    congruence.
Qed.

(** X14.  Once [parse_user_id] finds a user id in a text, nothing appended
    to the text changes it: the decoder reads the leftmost occurrence and
    looks no further than its comma. *)
Theorem parse_user_id_append :
  forall (s t u : string),
    parse_user_id s = Some u -> parse_user_id (s ++ t) = Some u.
Proof.
  intros s t u. unfold parse_user_id.
  destruct (Re.search USER_ID_PATTERN s) as [m|] eqn:E; [|discriminate].
  intros [= <-]. destruct (search_uid_extend s t m E) as (m' & -> & ->).
  reflexivity.
Qed.

Lemma parse_user_id_append_witness :
  parse_user_id ("//OK[12345,2" ++ ",OK[999,]") = Some "12345".
Proof. apply parse_user_id_append. reflexivity. Defined.

(** X15.  A token found by [parse_auth_token] is not changed by appended
    text whose first line holds no double quote (whatever follows that
    line); the token itself never holds a line feed. *)
Theorem parse_auth_token_append :
  forall (s t tok : string),
    parse_auth_token s = Some tok ->
    quote_free_line t = true ->
    parse_auth_token (s ++ t) = Some tok
    /\ has_char newline tok = false.
Proof.
  intros s t tok H Ht.
  apply parse_auth_token_sound in H as (pre & post & -> & H1 & H2 & H3).
  split; [|exact H2].
  replace ((pre ++ q (tok ++ q post)) ++ t)
    with (pre ++ q (tok ++ q (post ++ t)))
    by (unfold q; rewrite str_app_assoc; simpl;
        now rewrite str_app_assoc).
  apply parse_auth_token_complete; auto using qfl_app.
Qed.

Lemma parse_auth_token_append_witness :
  parse_auth_token
    (("//OK[" ++ quoted "abc" ++ "]") ++ String newline (quoted "zzz"))
  = Some "abc".
Proof.
  apply (parse_auth_token_append ("//OK[" ++ quoted "abc" ++ "]")
           (String newline (quoted "zzz")) "abc"); reflexivity.
Defined.

(** * Outcomes of the RPC steps and of the public methods *)

(** X16.  With a status that passes [raise_for_status], the identity
    exchange succeeds exactly when the response text holds the pattern
    [OK[digits,] anywhere, and the user id it returns is the one of the
    leftmost occurrence, whatever surrounds it. *)
Theorem authenticate_gwt_accepts_pattern :
  forall (config : GWTConfig) (ss ss' : Session) (response : Response),
    session_post GWT_API_URL (Body (build_authenticate_body config))
      (build_gwt_headers config) ss = (Return response, ss') ->
    status_is_error response = false ->
    (has_user_id_pattern (text response) <->
     exists u, authenticate_gwt config ss = (Return u, ss'))
    /\ (forall pre d post,
          text response = pre ++ "OK[" ++ d ++ "," ++ post ->
          d <> "" -> all_digits d = true -> ~ has_user_id_pattern pre ->
          authenticate_gwt config ss = (Return d, ss')).
Proof.
  intros config ss ss' response Hp Hst.
  rewrite authenticate_gwt_run, Hp, Hst. split; [split|].
  - intros H.
    destruct (parse_user_id (text response)) as [[|c u]|] eqn:P.
    + apply parse_user_id_sound in P as (_ & _ & _ & N & _). congruence.
    + eauto.
    + apply parse_user_id_none_iff in P. contradiction.
  - intros [u H].
    destruct (parse_user_id (text response)) as [[|c v]|] eqn:P;
      try discriminate.
    apply parse_user_id_sound in P as (pre & post & E & N & D).
    now exists pre, (String c v), post.
  - intros pre d post E Hd Hall Hpre. rewrite E.
    apply parse_user_id_none_iff in Hpre.
    rewrite (parse_user_id_framed pre d post Hd Hall Hpre).
    destruct d; [congruence | reflexivity].
Qed.

Lemma authenticate_gwt_accepts_pattern_witness :
  authenticate_gwt (get_gwt_config ∅ None None)
    (mkSession ∅
       (scripted [rpc_reply "<html>error near OK[31,7] and OK[99,]</html>"])
       [])
  = (Return "31",
     mkSession ∅ Unreachable
       [authenticate_request (get_gwt_config ∅ None None) ∅]).
Proof.
  assert (N : ~ has_user_id_pattern "<html>error near ")
    by (apply parse_user_id_none_iff; reflexivity).
  destruct (authenticate_gwt_accepts_pattern (get_gwt_config ∅ None None)
              (mkSession ∅
                 (scripted
                    [rpc_reply "<html>error near OK[31,7] and OK[99,]</html>"])
                 [])
              _ (rpc_reply "<html>error near OK[31,7] and OK[99,]</html>")
              eq_refl eq_refl) as (_ & L).
  apply (L "<html>error near " "31" "7] and OK[99,]</html>");
    [reflexivity | discriminate | reflexivity | exact N].
Defined.









(** * The CSV parsers *)

Lemma for_rows_inr {R A : Type} (body : R -> parse_error + A)
    (rows : list R) (out : list A) :
  for_rows body rows = inr out <->
  Forall2 (fun row a => body row = inr a) rows out.
Proof.
  revert out. induction rows as [|row rows IH]; intros out; simpl.
  - split.
    + intros [= <-]. constructor.
    + intros H. inversion H. reflexivity.
  - destruct (body row) as [e|a] eqn:B.
    + split; [discriminate|]. intros H. inversion H; subst. congruence.
    + destruct (for_rows body rows) as [e|l] eqn:F.
      * split; [discriminate|]. intros H. inversion H; subst.
        apply IH in H4. discriminate.
      * split.
        -- intros [= <-]. constructor; [exact B | now apply IH].
        -- intros H. inversion H; subst.
           apply IH in H4. congruence.
Qed.


Lemma Forall2_map_eq {R A : Type} (key : A -> R) (P : R -> A -> Prop)
    (rows : list R) (out : list A) :
  (forall r a, P r a -> key a = r) ->
  Forall2 P rows out -> map key out = rows.
Proof.
  intros K H. induction H as [|r a rows out Hra _ IH]; simpl;
    [reflexivity|].
  now rewrite (K _ _ Hra), IH.
Qed.


Section ParserProperties.

Variable float : Type.
Variable zero : float.
Variable py_float : string -> option float.
Variable datetime : Type.
Variable pydate : Type.
Variable strptime : string -> string -> option datetime.
Variable to_date : datetime -> pydate.
Variable DictReader : string -> list (gmap string (option string)).

Lemma serving_of_row_inv (r : gmap string (option string)) (a : Serving float datetime) :
  serving_of_row float zero py_float datetime strptime r = inr a ->
  s_raw_data _ _ a = r
  /\ _parse_datetime datetime strptime (row_date r) (row_time r)
     = inr (s_logged_at _ _ a).
Proof.
  unfold serving_of_row.
  destruct (_parse_datetime datetime strptime (row_date r) (row_time r));
    [discriminate|].
  intros [= <-]. auto.
Qed.

Lemma biometric_of_row_inv (r : gmap string (option string)) (a : BiometricEntry float datetime) :
  biometric_of_row float zero py_float datetime strptime r = inr a ->
  b_raw_data _ _ a = r
  /\ _parse_datetime datetime strptime (row_date r) (row_time r)
     = inr (b_logged_at _ _ a).
Proof.
  unfold biometric_of_row.
  destruct (_parse_datetime datetime strptime (row_date r) (row_time r));
    [discriminate|].
  intros [= <-]. auto.
Qed.

Lemma note_of_row_inv (r : gmap string (option string)) (a : Note datetime) :
  note_of_row datetime strptime r = inr a ->
  n_raw_data _ a = r
  /\ _parse_datetime datetime strptime (row_date r) (row_time r)
     = inr (n_logged_at _ a).
Proof.
  unfold note_of_row.
  destruct (_parse_datetime datetime strptime (row_date r) (row_time r));
    [discriminate|].
  intros [= <-]. auto.
Qed.

Lemma daily_of_row_inv (r : gmap string (option string)) (a : DailyNutrition float pydate) :
  daily_of_row float zero py_float datetime pydate strptime to_date r = inr a ->
  d_raw_data _ _ a = r
  /\ _parse_date datetime pydate strptime to_date (row_date r)
     = inr (d_date _ _ a).
Proof.
  unfold daily_of_row.
  destruct (_parse_date datetime pydate strptime to_date (row_date r));
    [discriminate|].
  intros [= <-]. auto.
Qed.

Lemma exercise_of_row_inv (r : gmap string (option string)) (a : Exercise float datetime) :
  exercise_of_row float zero py_float datetime strptime r = inr a ->
  e_raw_data _ _ a = r
  /\ _parse_datetime datetime strptime (row_date r) (row_time r)
     = inr (e_logged_at _ _ a).
Proof.
  unfold exercise_of_row.
  destruct (_parse_datetime datetime strptime (row_date r) (row_time r));
    [discriminate|].
  intros [= <-]. auto.
Qed.

(** X20.  When a parser returns, it returns one record per row of the
    reader, in the reader's order, each keeping its row as [raw_data]:
    no row is dropped, merged or reordered.  This holds for the five
    parsers. *)
Theorem parsers_keep_every_row :
  forall (csv_text : string),
    (forall out,
       parse_servings float zero py_float datetime strptime DictReader csv_text
       = inr out ->
       map (s_raw_data _ _) out = DictReader csv_text)
    /\ (forall out,
          parse_biometrics float zero py_float datetime strptime DictReader
            csv_text = inr out ->
          map (b_raw_data _ _) out = DictReader csv_text)
    /\ (forall out,
          parse_notes datetime strptime DictReader csv_text = inr out ->
          map (n_raw_data _) out = DictReader csv_text)
    /\ (forall out,
          parse_daily_nutrition float zero py_float datetime pydate strptime
            to_date DictReader csv_text = inr out ->
          map (d_raw_data _ _) out = DictReader csv_text)
    /\ (forall out,
          parse_exercises float zero py_float datetime strptime DictReader
            csv_text = inr out ->
          map (e_raw_data _ _) out = DictReader csv_text).
Proof.
  intros csv_text.
  split; [|split; [|split; [|split]]]; intros out H;
    apply for_rows_inr in H;
    (eapply Forall2_map_eq; [|exact H]); intros r a Hra; simpl in Hra.
  - now apply serving_of_row_inv in Hra.
  - now apply biometric_of_row_inv in Hra.
  - now apply note_of_row_inv in Hra.
  - now apply daily_of_row_inv in Hra.
  - now apply exercise_of_row_inv in Hra.
Qed.



(** X22.  [_parse_datetime] with a time: when date and time parse
    together the result is that date-time; when they do not (a time that
    is not [HH:MM]), the time is dropped silently and the result is what
    the date alone gives.  Without a time, or with an empty one, the date
    alone is parsed. *)
Theorem parse_datetime_time_fallback :
  forall (d : string) (t : option string),
    (forall tm dt,
       t = Some tm -> tm <> "" ->
       strptime (d ++ " " ++ tm) "%Y-%m-%d %H:%M" = Some dt ->
       _parse_datetime datetime strptime (Some d) t = inr dt)
    /\ (forall tm,
          t = Some tm ->
          strptime (d ++ " " ++ tm) "%Y-%m-%d %H:%M" = None ->
          _parse_datetime datetime strptime (Some d) t
          = _parse_datetime datetime strptime (Some d) None)
    /\ (truthy t = false ->
        _parse_datetime datetime strptime (Some d) t
        = match strptime d "%Y-%m-%d" with
          | Some dt => inr dt
          | None => inl ValueError
          end).
Proof.
  intros d t. split; [|split].
  - intros tm dt -> Htm H. unfold _parse_datetime.
    destruct tm; [congruence|]. simpl in H |- *. now rewrite H.
  - intros tm -> H. unfold _parse_datetime.
    destruct tm; [reflexivity|]. simpl in H |- *. now rewrite H.
  - intros Ht. unfold _parse_datetime.
    destruct t as [[|c t]|]; try discriminate; reflexivity.
Qed.

(** X23.  The numeric columns fall back by emptiness, not by validity.  In
    a serving, when the [Energy (kcal)] cell is a non-empty string the
    [Calories] column is never consulted: the result is the cell's float,
    or 0.0 when the cell is not a number, even if [Calories] holds one.
    When the cell is absent, [None] or empty, [Calories] is used, and 0.0
    when that is absent too. *)
Theorem serving_calories_fallback :
  forall (r : gmap string (option string)) (a : Serving float datetime),
    serving_of_row float zero py_float datetime strptime r = inr a ->
    (forall v, r !! "Energy (kcal)" = Some (Some v) -> v <> "" ->
       s_calories _ _ a = _parse_float float py_float (Some v) zero
       /\ (py_float v = None -> s_calories _ _ a = zero))
    /\ (truthy (row_get r "Energy (kcal)") = false ->
        s_calories _ _ a
        = _parse_float float py_float (row_get_or r "Calories" "") zero)
    /\ (truthy (row_get r "Energy (kcal)") = false ->
        r !! "Calories" = None -> s_calories _ _ a = zero).
Proof.
  intros r a. unfold serving_of_row.
  destruct (_parse_datetime datetime strptime (row_date r) (row_time r));
    [discriminate|].
  intros [= <-]. simpl. split; [|split].
  - intros v Hv Hne. unfold or_else, row_get. rewrite Hv.
    destruct v as [|c v]; [congruence|]. simpl. split; [reflexivity|].
    intros ->. now destruct (String.eqb _ _).
  - intros H. unfold or_else. now rewrite H.
  - intros H Hc. unfold or_else, row_get_or. rewrite H, Hc. reflexivity.
Qed.

End ParserProperties.

Lemma parsers_keep_every_row_witness :
  exists out,
    parse_servings string "0.0" literal_float string length_strptime
      (given_rows [oatmeal_row; odd_row]) "csv" = inr out
    /\ map (s_raw_data _ _) out = [oatmeal_row; odd_row].
Proof.
  destruct (parsers_keep_every_row string "0.0" literal_float string string
              length_strptime (fun dt => dt)
              (given_rows [oatmeal_row; odd_row]) "csv") as (A & _).
  eexists. split; [reflexivity|]. apply A. reflexivity.
Defined.


Lemma parse_datetime_time_fallback_witness :
  _parse_datetime string length_strptime (Some "2024-01-16") (Some "late")
  = _parse_datetime string length_strptime (Some "2024-01-16") None
  /\ _parse_datetime string length_strptime (Some "2024-01-15") (Some "08:30")
     = inr "2024-01-15 08:30".
Proof.
  destruct (parse_datetime_time_fallback string length_strptime
              "2024-01-16" (Some "late")) as (_ & B & _).
  destruct (parse_datetime_time_fallback string length_strptime
              "2024-01-15" (Some "08:30")) as (A & _).
  split.
  - apply (B "late"); reflexivity.
  - apply (A "08:30"); [reflexivity | discriminate | reflexivity].
Defined.

Lemma serving_calories_fallback_witness :
  exists a,
    serving_of_row string "0.0" literal_float string length_strptime odd_row
    = inr a
    /\ s_calories _ _ a = "0.0".
Proof.
  eexists. split; [reflexivity|].
  edestruct (serving_calories_fallback string "0.0" literal_float string
               length_strptime odd_row) as (A & _); [reflexivity|].
  destruct (A "n/a") as (_ & Z); [reflexivity | discriminate|].
  apply Z. reflexivity.
Defined.
